(** * SSH connection service: credential resolution, session establishment
      and connection tests

    A shallow embedding of the backend SSH service
    ([getConnectionDetails], [establishSshConnection], [testConnection],
    [testUnsavedConnection]) and the properties its specification states.

    - Section 1: the data model (records of the service and of the rows the
      repositories return).
    - Section 2: observable effects and the resolver monad (state over the
      backing data, effect log, exceptions).
    - Section 3: the credential resolver.
    - Section 4: the session establisher as an event-driven state machine
      over the listeners of the SSH client.
    - Section 5: the connection testers.
    - Section 6: the vocabulary of the properties and sample data;
      6.1 adds the shell channel ([openShell]).
    - Sections 7 to 9: the properties of the resolver, of the establisher
      and of the testers.
    - Section 10: the properties on the sample data.
    - Sections 11 to 13: further properties of the resolver, of the
      establisher, of the testers and of the shell channel.
    - Section 14: the further properties on the sample data. *)

From Stdlib Require Import String ZArith List Bool Lia DecimalString.
Import ListNotations.
Open Scope string_scope.
Open Scope Z_scope.

(* ===================================================================== *)
(** * 1. Data model *)
(* ===================================================================== *)

(** A JavaScript [Error]: only its message is observed. *)
Record Error : Type := mkError { message : string }.

(** Outcome of a call that may throw. *)
Inductive result (A : Type) : Type :=
| Ok (a : A)
| Err (e : Error).
Arguments Ok {A} a.
Arguments Err {A} e.

(** Template-literal rendering of an integer. *)
Definition string_of_Z (z : Z) : string :=
  NilZero.string_of_int (Z.to_int z).

(** [auth_method: 'password' | 'key']. *)
Inductive AuthMethod : Type := password_auth | key_auth.

(** JavaScript truthiness of an optional number and of an optional string:
    [null], [undefined], [0] and the empty string are falsy.  The truthy
    value is returned for use in the guarded branch. *)
Definition truthyZ (o : option Z) : option Z :=
  match o with
  | Some z => if z =? 0 then None else Some z
  | None => None
  end.

Definition truthyS (o : option string) : option string :=
  match o with
  | Some s => if String.eqb s EmptyString then None else Some s
  | None => None
  end.

(** The row returned by [ConnectionRepository.findFullConnectionById]
    (connection joined with its proxy).  The repository is outside this
    service; the fields are those the service reads, nullable wherever
    the service guards them with [??] or a truthiness test. *)
Module RawConn.
Record t : Type := mk {
  id : Z;
  name : option string;
  host : option string;
  port : option Z;
  username : option string;
  auth_method : option AuthMethod;
  encrypted_password : option string;
  ssh_key_id : option Z;
  encrypted_private_key : option string;
  encrypted_passphrase : option string;
  proxy_db_id : option Z;
  proxy_name : option string;
  proxy_type : option string;
  proxy_host : option string;
  proxy_port : option Z;
  proxy_username : option string;
  proxy_encrypted_password : option string
}.
End RawConn.

(** The row returned by [ProxyRepository.findProxyById]. *)
Module RawProxy.
Record t : Type := mk {
  id : Z;
  name : option string;
  type : option string;
  host : option string;
  port : option Z;
  username : option string;
  encrypted_password : option string
}.
End RawProxy.

(** The value returned by [SshKeyService.getDecryptedSshKeyById]. *)
Module StoredKey.
Record t : Type := mk {
  privateKey : string;
  passphrase : option string
}.
End StoredKey.

(** The [proxy] member of [DecryptedConnectionDetails].  The type tag is
    kept as the string the code compares against ['SOCKS5'] and ['HTTP']. *)
Module Proxy.
Record t : Type := mk {
  id : Z;
  name : string;
  type : string;
  host : string;
  port : Z;
  username : option string;
  password : option string
}.
End Proxy.

(** [DecryptedConnectionDetails]. *)
Module Details.
Record t : Type := mk {
  id : Z;
  name : string;
  host : string;
  port : Z;
  username : string;
  auth_method : AuthMethod;
  password : option string;
  privateKey : option string;
  passphrase : option string;
  proxy : option Proxy.t
}.

Definition set_password (d : t) (v : option string) : t :=
  mk (id d) (name d) (host d) (port d) (username d) (auth_method d)
     v (privateKey d) (passphrase d) (proxy d).
Definition set_privateKey (d : t) (v : option string) : t :=
  mk (id d) (name d) (host d) (port d) (username d) (auth_method d)
     (password d) v (passphrase d) (proxy d).
Definition set_passphrase (d : t) (v : option string) : t :=
  mk (id d) (name d) (host d) (port d) (username d) (auth_method d)
     (password d) (privateKey d) v (proxy d).
Definition set_proxy (d : t) (v : option Proxy.t) : t :=
  mk (id d) (name d) (host d) (port d) (username d) (auth_method d)
     (password d) (privateKey d) (passphrase d) v.
End Details.

(** The argument of [testUnsavedConnection]. *)
Module Config.
Record t : Type := mk {
  host : string;
  port : Z;
  username : string;
  auth_method : AuthMethod;
  password : option string;
  private_key : option string;
  passphrase : option string;
  ssh_key_id : option Z;
  proxy_id : option Z
}.
End Config.

(** A raw socket handed over by a proxy library. *)
Definition Socket : Type := nat.

(** [ConnectConfig] as built by [establishSshConnection]. *)
Module ConnectConfig.
Record t : Type := mk {
  host : string;
  port : Z;
  username : string;
  password : option string;
  privateKey : option string;
  passphrase : option string;
  readyTimeout : Z;
  keepaliveInterval : Z;
  keepaliveCountMax : Z;
  sock : option Socket
}.

Definition set_sock (c : t) (s : Socket) : t :=
  mk (host c) (port c) (username c) (password c) (privateKey c)
     (passphrase c) (readyTimeout c) (keepaliveInterval c)
     (keepaliveCountMax c) (Some s).
End ConnectConfig.

(** [SocksClientOptions] as built for a SOCKS5 proxy. *)
Module SocksOptions.
Record t : Type := mk {
  proxy_host : string;
  proxy_port : Z;
  proxy_type : Z;
  proxy_userId : option string;
  proxy_password : option string;
  command : string;
  destination_host : string;
  destination_port : Z;
  timeout : Z
}.
End SocksOptions.

(** [http.RequestOptions] as built for an HTTP proxy. *)
Module ReqOptions.
Record t : Type := mk {
  method : string;
  host : string;
  port : Z;
  path : string;
  timeout : Z;
  agent : bool;
  headers : list (string * string)
}.
End ReqOptions.

Definition CONNECT_TIMEOUT : Z := 20000.
Definition TEST_TIMEOUT : Z := 15000.

(* ===================================================================== *)
(** * 2. Effects and the resolver monad *)
(* ===================================================================== *)

(** Which stored ciphertext a [decrypt] call is applied to. *)
Inductive SecretField : Type :=
| f_encrypted_password
| f_encrypted_private_key
| f_encrypted_passphrase
| f_proxy_encrypted_password.

Inductive ConsoleLevel : Type := warn | error.

(** The calls the service makes on its collaborators, in program order.
    [console.log] progress messages are not recorded; [console.warn] and
    [console.error] are. *)
Inductive Effect : Type :=
| EFindFullConnectionById (id : Z)
| EFindProxyById (id : Z)
| EGetDecryptedSshKeyById (id : Z)
| EDecrypt (field : SecretField) (ciphertext : string)
| EConsole (lvl : ConsoleLevel) (text : string) (arg : option Error)
| EUpdateLastConnected (id : Z) (seconds : Z)
| ENewClient
| EClientConnect (cfg : ConnectConfig.t)
| EClientEnd
| ESocksCreateConnection (opts : SocksOptions.t)
| EHttpRequest (opts : ReqOptions.t)
| EReqEnd
| EReqDestroy
| ESocketDestroy (s : Socket)
| EResolve
| EReject (err : Error)
| EUncaughtError (err : Error).

(** Effects that reach the network: opening the SSH transport or starting
    a proxy handshake. *)
Definition is_network (e : Effect) : bool :=
  match e with
  | EClientConnect _ | ESocksCreateConnection _ | EHttpRequest _ => true
  | _ => false
  end.

(** Effects that change persistent state or create/release resources;
    lookups, decryption and console output do not. *)
Definition is_read_only (e : Effect) : bool :=
  match e with
  | EFindFullConnectionById _ | EFindProxyById _
  | EGetDecryptedSshKeyById _ | EDecrypt _ _ | EConsole _ _ _ => true
  | _ => false
  end.

(** The collaborators of the service, over an abstract state [World] of the
    backing data: the two repositories, the key vault and the secret
    store.  Asynchronous lookups take and return the backing state and may
    reject; [decrypt] is a synchronous function that may throw. *)
Class Backend (World : Type) : Type := {
  findFullConnectionById : Z -> World -> World * result (option RawConn.t);
  findProxyById : Z -> World -> World * result (option RawProxy.t);
  getDecryptedSshKeyById : Z -> World -> World * result (option StoredKey.t);
  decrypt : string -> result string
}.

(** State (backing data and effect log) with exceptions. *)
Definition M (World A : Type) : Type :=
  World * list Effect -> (World * list Effect) * result A.

Definition ret {World A} (a : A) : M World A := fun s => (s, Ok a).

Definition bind {World A B} (m : M World A) (k : A -> M World B) : M World B :=
  fun s =>
    match m s with
    | (s', Ok a) => k a s'
    | (s', Err e) => (s', Err e)
    end.

Definition throw {World A} (e : Error) : M World A := fun s => (s, Err e).

Definition try_catch {World A} (m : M World A) (h : Error -> M World A)
  : M World A :=
  fun s =>
    match m s with
    | (s', Ok a) => (s', Ok a)
    | (s', Err e) => h e s'
    end.

Definition perform {World} (e : Effect) : M World unit :=
  fun s => ((fst s, (snd s ++ [e])%list), Ok tt).

(** Await a collaborator: record the call, run it on the backing data. *)
Definition await_call {World A} (e : Effect)
    (f : World -> World * result A) : M World A :=
  fun s =>
    let '(w', r) := f (fst s) in ((w', (snd s ++ [e])%list), r).

Declare Scope resolver_scope.
Delimit Scope resolver_scope with resolver.
Notation "x <- m ;; k" := (bind m (fun x => k))
  (at level 61, m at next level, right associativity) : resolver_scope.
Notation "m ;;; k" := (bind m (fun _ => k))
  (at level 61, right associativity) : resolver_scope.

(** [o ?? (() => { throw new Error(msg) })()]. *)
Definition require {World A} (o : option A) (msg : string) : M World A :=
  match o with
  | Some a => ret a
  | None => throw (mkError msg)
  end.

(* ===================================================================== *)
(** * 3. The credential resolver *)
(* ===================================================================== *)

Section Resolver.
Context {World : Type} {backend : Backend World}.
Local Open Scope resolver_scope.

(** [decrypt(ct)] applied to the stored field [f]. *)
Definition decrypt_field (f : SecretField) (ct : string) : M World string :=
  perform (EDecrypt f ct) ;;;
  match decrypt ct with
  | Ok plain => ret plain
  | Err e => throw e
  end.

(** [proxyType !== 'SOCKS5' && proxyType !== 'HTTP']. *)
Definition unsupported_proxy_type (proxyType : string) : bool :=
  negb (String.eqb proxyType "SOCKS5") && negb (String.eqb proxyType "HTTP").

(** [getConnectionDetails], the object literal [fullConnInfo]: mandatory
    fields are checked in order, credentials and proxy start empty. *)
Definition initial_details (connectionId : Z) (rawConnInfo : RawConn.t)
  : M World Details.t :=
  let cid := string_of_Z connectionId in
  name <- require (RawConn.name rawConnInfo)
            ("Connection ID " ++ cid ++ " has null name.") ;;
  host <- require (RawConn.host rawConnInfo)
            ("Connection ID " ++ cid ++ " has null host.") ;;
  port <- require (RawConn.port rawConnInfo)
            ("Connection ID " ++ cid ++ " has null port.") ;;
  username <- require (RawConn.username rawConnInfo)
            ("Connection ID " ++ cid ++ " has null username.") ;;
  auth_method <- require (RawConn.auth_method rawConnInfo)
            ("Connection ID " ++ cid ++ " has null auth_method.") ;;
  ret (Details.mk (RawConn.id rawConnInfo) name host port username
         auth_method None None None None).

(** [getConnectionDetails], the credential branches: the password, or
    for key authentication the stored key first, then the inline key,
    else a warning only. *)
Definition resolve_credentials (connectionId : Z) (rawConnInfo : RawConn.t)
    (fullConnInfo : Details.t) : M World Details.t :=
  let cid := string_of_Z connectionId in
  match Details.auth_method fullConnInfo,
        truthyS (RawConn.encrypted_password rawConnInfo) with
  | password_auth, Some encrypted_password =>
      plain <- decrypt_field f_encrypted_password encrypted_password ;;
      ret (Details.set_password fullConnInfo (Some plain))
  | password_auth, None => ret fullConnInfo
  | key_auth, _ =>
      match truthyZ (RawConn.ssh_key_id rawConnInfo) with
      | Some ssh_key_id =>
          storedKeyDetails <-
            await_call (EGetDecryptedSshKeyById ssh_key_id)
                       (getDecryptedSshKeyById ssh_key_id) ;;
          match storedKeyDetails with
          | None =>
              perform (EConsole error
                ("SshService: Error: Connection " ++ cid ++
                 " references non-existent SSH key ID " ++
                 string_of_Z ssh_key_id) None) ;;;
              throw (mkError ("关联的 SSH 密钥 (ID: " ++
                              string_of_Z ssh_key_id ++ ") 未找到。"))
          | Some k =>
              ret (Details.set_passphrase
                     (Details.set_privateKey fullConnInfo
                        (Some (StoredKey.privateKey k)))
                     (StoredKey.passphrase k))
          end
      | None =>
          match truthyS (RawConn.encrypted_private_key rawConnInfo) with
          | Some encrypted_private_key =>
              key <- decrypt_field f_encrypted_private_key
                       encrypted_private_key ;;
              let fullConnInfo :=
                Details.set_privateKey fullConnInfo (Some key) in
              match truthyS (RawConn.encrypted_passphrase rawConnInfo) with
              | Some encrypted_passphrase =>
                  pp <- decrypt_field f_encrypted_passphrase
                          encrypted_passphrase ;;
                  ret (Details.set_passphrase fullConnInfo (Some pp))
              | None => ret fullConnInfo
              end
          | None =>
              perform (EConsole warn
                ("SshService: Connection " ++ cid ++
                 " uses key auth but has neither ssh_key_id nor encrypted_private_key.")
                None) ;;;
              ret fullConnInfo
          end
      end
  end.

(** [password: ct ? decrypt(ct) : undefined]. *)
Definition decrypt_optional (f : SecretField) (ct : option string)
  : M World (option string) :=
  match truthyS ct with
  | Some c => plain <- decrypt_field f c ;; ret (Some plain)
  | None => ret None
  end.

(** [getConnectionDetails], the proxy block under
    [if (rawConnInfo.proxy_db_id)]. *)
Definition resolve_proxy (connectionId : Z) (rawConnInfo : RawConn.t)
    (fullConnInfo : Details.t) : M World Details.t :=
  let cid := string_of_Z connectionId in
  match truthyZ (RawConn.proxy_db_id rawConnInfo) with
  | Some proxy_db_id =>
      proxyName <- require (RawConn.proxy_name rawConnInfo)
        ("Proxy for Connection ID " ++ cid ++ " has null name.") ;;
      proxyType <- require (RawConn.proxy_type rawConnInfo)
        ("Proxy for Connection ID " ++ cid ++ " has null type.") ;;
      proxyHost <- require (RawConn.proxy_host rawConnInfo)
        ("Proxy for Connection ID " ++ cid ++ " has null host.") ;;
      proxyPort <- require (RawConn.proxy_port rawConnInfo)
        ("Proxy for Connection ID " ++ cid ++ " has null port.") ;;
      if unsupported_proxy_type proxyType then
        throw (mkError ("Proxy for Connection ID " ++ cid ++
                        " has invalid type: " ++ proxyType))
      else
        pw <- decrypt_optional f_proxy_encrypted_password
                (RawConn.proxy_encrypted_password rawConnInfo) ;;
        ret (Details.set_proxy fullConnInfo
               (Some (Proxy.mk proxy_db_id proxyName proxyType proxyHost
                        proxyPort
                        (truthyS (RawConn.proxy_username rawConnInfo))
                        pw)))
  | None => ret fullConnInfo
  end.

(** [getConnectionDetails(connectionId)]. *)
Definition getConnectionDetails (connectionId : Z) : M World Details.t :=
  rawConnInfo <- await_call (EFindFullConnectionById connectionId)
                   (findFullConnectionById connectionId) ;;
  match rawConnInfo with
  | None =>
      throw (mkError ("连接配置 ID " ++ string_of_Z connectionId ++
                      " 未找到。"))
  | Some rawConnInfo =>
      try_catch
        (fullConnInfo <- initial_details connectionId rawConnInfo ;;
         fullConnInfo <- resolve_credentials connectionId rawConnInfo
                           fullConnInfo ;;
         resolve_proxy connectionId rawConnInfo fullConnInfo)
        (fun decryptError =>
           perform (EConsole error
             ("SshService: 处理连接 " ++ string_of_Z connectionId ++
              " 凭证或代理凭证失败:") (Some decryptError)) ;;;
           throw (mkError ("处理凭证失败: " ++ message decryptError)))
  end.

(** [testUnsavedConnection], step 1: the temporary
    [DecryptedConnectionDetails] with the sentinel id [-1] and the
    credentials taken from the caller's plaintext or from the vault. *)
Definition temp_credentials (connectionConfig : Config.t)
  : M World Details.t :=
  let tempConnDetails :=
    Details.mk (-1) ("Test-" ++ Config.host connectionConfig)
      (Config.host connectionConfig) (Config.port connectionConfig)
      (Config.username connectionConfig)
      (Config.auth_method connectionConfig) None None None None in
  match Details.auth_method tempConnDetails with
  | password_auth =>
      ret (Details.set_password tempConnDetails
             (Config.password connectionConfig))
  | key_auth =>
      match truthyZ (Config.ssh_key_id connectionConfig) with
      | Some ssh_key_id =>
          storedKeyDetails <-
            await_call (EGetDecryptedSshKeyById ssh_key_id)
                       (getDecryptedSshKeyById ssh_key_id) ;;
          match storedKeyDetails with
          | None =>
              throw (mkError ("选择的 SSH 密钥 (ID: " ++
                              string_of_Z ssh_key_id ++ ") 未找到。"))
          | Some k =>
              ret (Details.set_passphrase
                     (Details.set_privateKey tempConnDetails
                        (Some (StoredKey.privateKey k)))
                     (StoredKey.passphrase k))
          end
      | None =>
          ret (Details.set_passphrase
                 (Details.set_privateKey tempConnDetails
                    (Config.private_key connectionConfig))
                 (Config.passphrase connectionConfig))
      end
  end.

(** [testUnsavedConnection], step 2: the proxy referenced by
    [proxy_id], looked up, validated and decrypted. *)
Definition temp_proxy (connectionConfig : Config.t)
    (tempConnDetails : Details.t) : M World Details.t :=
  match truthyZ (Config.proxy_id connectionConfig) with
  | Some proxy_id =>
      let pid := string_of_Z proxy_id in
      rawProxyInfo <- await_call (EFindProxyById proxy_id)
                        (findProxyById proxy_id) ;;
      match rawProxyInfo with
      | None => throw (mkError ("代理 ID " ++ pid ++ " 未找到。"))
      | Some rawProxyInfo =>
          try_catch
            (proxyName <- require (RawProxy.name rawProxyInfo)
               ("Proxy ID " ++ pid ++ " has null name.") ;;
             proxyType <- require (RawProxy.type rawProxyInfo)
               ("Proxy ID " ++ pid ++ " has null type.") ;;
             proxyHost <- require (RawProxy.host rawProxyInfo)
               ("Proxy ID " ++ pid ++ " has null host.") ;;
             proxyPort <- require (RawProxy.port rawProxyInfo)
               ("Proxy ID " ++ pid ++ " has null port.") ;;
             if unsupported_proxy_type proxyType then
               throw (mkError ("Proxy ID " ++ pid ++
                               " has invalid type: " ++ proxyType))
             else
               pw <- decrypt_optional f_proxy_encrypted_password
                       (RawProxy.encrypted_password rawProxyInfo) ;;
               ret (Details.set_proxy tempConnDetails
                      (Some (Proxy.mk (RawProxy.id rawProxyInfo) proxyName
                               proxyType proxyHost proxyPort
                               (truthyS (RawProxy.username rawProxyInfo))
                               pw))))
            (fun decryptError =>
               perform (EConsole error
                 ("SshService: 处理代理 " ++ pid ++ " 凭证失败:")
                 (Some decryptError)) ;;;
               throw (mkError ("处理代理凭证失败: " ++
                               message decryptError)))
      end
  | None => ret tempConnDetails
  end.

(** [testUnsavedConnection], steps 1 and 2 together: the inline
    resolution that precedes establishment. *)
Definition resolveInline (connectionConfig : Config.t) : M World Details.t :=
  tempConnDetails <- temp_credentials connectionConfig ;;
  temp_proxy connectionConfig tempConnDetails.

End Resolver.

(* ===================================================================== *)
(** * 4. The session establisher *)
(* ===================================================================== *)

(** The functions registered on the SSH client, by event.  A listener is
    removed by function identity: [readyHandler] and
    [enhancedReadyHandler] are different functions. *)
Inductive ReadyFn : Type := fn_readyHandler | fn_enhancedReadyHandler.
Inductive ErrorFn : Type := fn_errorHandler.
Inductive CloseFn : Type := fn_closeHandler.

Definition ReadyFn_eqb (f g : ReadyFn) : bool :=
  match f, g with
  | fn_readyHandler, fn_readyHandler => true
  | fn_enhancedReadyHandler, fn_enhancedReadyHandler => true
  | _, _ => false
  end.

(** A registered listener: the function and whether it was added with
    [once]. *)
Record Listener (F : Type) : Type := mkListener { fn : F; once : bool }.
Arguments mkListener {F} fn once.
Arguments fn {F} l.
Arguments once {F} l.

(** The listener arrays of the [Client] (an [EventEmitter]). *)
Record Emitter : Type := mkEmitter {
  on_ready : list (Listener ReadyFn);
  on_error : list (Listener ErrorFn);
  on_close : list (Listener CloseFn)
}.

(** [removeListener] removes at most one entry, the most recently added
    one that matches. *)
Fixpoint remove_listener {F} (eqb : F -> F -> bool) (f : F)
    (ls : list (Listener F)) : list (Listener F) :=
  match ls with
  | [] => []
  | l :: rest =>
      if existsb (fun l' => eqb (fn l') f) rest
      then l :: remove_listener eqb f rest
      else if eqb (fn l) f then rest else l :: rest
  end.

(** How the promise returned by [establishSshConnection] settled. *)
Inductive Settlement : Type :=
| Resolved
| Rejected (err : Error).

(** The proxy callbacks that are live: none, the promise of
    [SocksClient.createConnection], or the listeners of the HTTP
    [CONNECT] request. *)
Inductive ProxyCallbacks : Type :=
| no_callbacks
| socks_promise (proxy : Proxy.t)
| http_req (proxy : Proxy.t).

(** One connection attempt: the closure of the promise executor. *)
Record Attempt : Type := mkAttempt {
  connDetails : Details.t;
  connectConfig : ConnectConfig.t;
  emitter : Emitter;
  promise : option Settlement;
  (** invocations of [readyHandler] suspended at [await updateLastConnected] *)
  suspended : nat;
  callbacks : ProxyCallbacks;
  trace : list Effect
}.

(** What the environment delivers to an attempt. *)
Inductive Event : Type :=
| SshReady (now : Z)                   (* 'ready'; [Date.now()] reads [now] *)
| SshError (err : Error)               (* 'error' on the client *)
| SshClose                             (* 'close' on the client *)
| UpdateSettled (r : result unit)      (* [updateLastConnected] settles *)
| SocksConnected (socket : Socket)     (* SOCKS promise fulfilled *)
| SocksFailed (socksError : Error)     (* SOCKS promise rejected *)
| HttpConnect (statusCode : Z) (socket : Socket)  (* 'connect' on the request *)
| HttpError (err : Error)              (* 'error' on the request *)
| HttpTimeout.                         (* 'timeout' on the request *)

Section Establisher.
(** [sshClient.end()] returns or throws; [base64] is
    [Buffer.from(s).toString('base64')]. *)
Variable client_end : result unit.
Variable base64 : string -> string.

Definition with_emitter (a : Attempt) (e : Emitter) : Attempt :=
  mkAttempt (connDetails a) (connectConfig a) e (promise a) (suspended a)
    (callbacks a) (trace a).
Definition with_promise (a : Attempt) (p : option Settlement) : Attempt :=
  mkAttempt (connDetails a) (connectConfig a) (emitter a) p (suspended a)
    (callbacks a) (trace a).
Definition with_suspended (a : Attempt) (n : nat) : Attempt :=
  mkAttempt (connDetails a) (connectConfig a) (emitter a) (promise a) n
    (callbacks a) (trace a).
Definition with_callbacks (a : Attempt) (c : ProxyCallbacks) : Attempt :=
  mkAttempt (connDetails a) (connectConfig a) (emitter a) (promise a)
    (suspended a) c (trace a).
Definition with_config (a : Attempt) (c : ConnectConfig.t) : Attempt :=
  mkAttempt (connDetails a) c (emitter a) (promise a) (suspended a)
    (callbacks a) (trace a).
Definition record (e : Effect) (a : Attempt) : Attempt :=
  mkAttempt (connDetails a) (connectConfig a) (emitter a) (promise a)
    (suspended a) (callbacks a) (trace a ++ [e])%list.
Definition record_all (es : list Effect) (a : Attempt) : Attempt :=
  mkAttempt (connDetails a) (connectConfig a) (emitter a) (promise a)
    (suspended a) (callbacks a) (trace a ++ es)%list.

Definition removeReady (f : ReadyFn) (a : Attempt) : Attempt :=
  let em := emitter a in
  with_emitter a (mkEmitter (remove_listener ReadyFn_eqb f (on_ready em))
                            (on_error em) (on_close em)).
Definition removeError (f : ErrorFn) (a : Attempt) : Attempt :=
  let em := emitter a in
  with_emitter a (mkEmitter (on_ready em)
                   (remove_listener (fun _ _ => true) f (on_error em))
                   (on_close em)).
Definition removeClose (f : CloseFn) (a : Attempt) : Attempt :=
  let em := emitter a in
  with_emitter a (mkEmitter (on_ready em) (on_error em)
                   (remove_listener (fun _ _ => true) f (on_close em))).

(** [resolve(sshClient)] and [reject(err)]: the call is recorded; only
    the first call on a pending promise settles it. *)
Definition resolve (a : Attempt) : Attempt :=
  let a := record EResolve a in
  with_promise a
    match promise a with
    | None => Some Resolved
    | Some settled => Some settled
    end.
Definition reject (err : Error) (a : Attempt) : Attempt :=
  let a := record (EReject err) a in
  with_promise a
    match promise a with
    | None => Some (Rejected err)
    | Some settled => Some settled
    end.

(** [host:port (ID: id)] as the log lines print the target. *)
Definition target (a : Attempt) : string :=
  Details.host (connDetails a) ++ ":" ++
  string_of_Z (Details.port (connDetails a)).

(** [readyHandler] up to its [await]: detach the error listener, call
    [updateLastConnected(connDetails.id, floor(now / 1000))], suspend. *)
Definition readyHandler (now : Z) (a : Attempt) : Attempt :=
  let a := removeError fn_errorHandler a in
  let currentTimeSeconds := now / 1000 in
  let a := record (EUpdateLastConnected (Details.id (connDetails a))
                     currentTimeSeconds) a in
  with_suspended a (S (suspended a)).

(** [readyHandler] after its [await]: a rejected update is logged in the
    [catch]; then [resolve(sshClient)]. *)
Definition readyHandler_resume (r : result unit) (a : Attempt) : Attempt :=
  let a :=
    record_all
      match r with
      | Ok _ => []
      | Err updateError =>
          [EConsole error
             ("SshService: 更新连接 " ++
              string_of_Z (Details.id (connDetails a)) ++
              " 的 last_connected_at 失败:") (Some updateError)]
      end a in
  resolve a.

Definition errorHandler (err : Error) (a : Attempt) : Attempt :=
  let a := removeReady fn_readyHandler a in
  let a := removeError fn_errorHandler a in
  let a := removeClose fn_closeHandler a in
  let a := record (EConsole error
             ("SshService: SSH 连接到 " ++ target a ++ " (ID: " ++
              string_of_Z (Details.id (connDetails a)) ++ ") 失败:")
             (Some err)) a in
  let a := record EClientEnd a in
  let a :=
    record_all
      match client_end with
      | Ok _ => []
      | Err endError =>
          [EConsole error
             "SshService: Error while calling sshClient.end() during error handling:"
             (Some endError)]
      end a in
  reject err a.

Definition closeHandler (a : Attempt) : Attempt :=
  let a := removeReady fn_readyHandler a in
  let a := removeError fn_errorHandler a in
  removeClose fn_closeHandler a.

Definition enhancedReadyHandler (now : Z) (a : Attempt) : Attempt :=
  let a := removeError fn_errorHandler a in
  let a := removeClose fn_closeHandler a in
  readyHandler now a.

Definition handleProxyError (proxyError : Error) (a : Attempt) : Attempt :=
  let a := record (EConsole error
             ("SshService: Proxy setup failed for " ++ target a ++
              " (ID: " ++ string_of_Z (Details.id (connDetails a)) ++ ")")
             (Some proxyError)) a in
  errorHandler proxyError a.

(** [emit]: the listeners present when the event is emitted are called
    in registration order; a [once] listener is removed before it is
    called.  An 'error' event without a listener is thrown. *)
Definition call_ready (now : Z) (a : Attempt) (l : Listener ReadyFn)
  : Attempt :=
  let a := if once l then removeReady (fn l) a else a in
  match fn l with
  | fn_readyHandler => readyHandler now a
  | fn_enhancedReadyHandler => enhancedReadyHandler now a
  end.
Definition call_error (err : Error) (a : Attempt) (l : Listener ErrorFn)
  : Attempt :=
  let a := if once l then removeError (fn l) a else a in
  match fn l with
  | fn_errorHandler => errorHandler err a
  end.
Definition call_close (a : Attempt) (l : Listener CloseFn) : Attempt :=
  let a := if once l then removeClose (fn l) a else a in
  match fn l with
  | fn_closeHandler => closeHandler a
  end.

Definition emit_ready (now : Z) (a : Attempt) : Attempt :=
  fold_left (call_ready now) (on_ready (emitter a)) a.
Definition emit_error (err : Error) (a : Attempt) : Attempt :=
  match on_error (emitter a) with
  | [] => record (EUncaughtError err) a
  | ls => fold_left (call_error err) ls a
  end.
Definition emit_close (a : Attempt) : Attempt :=
  fold_left call_close (on_close (emitter a)) a.

(** [sshClient.connect(connectConfig)] over the socket of a tunnel. *)
Definition connect_over (socket : Socket) (a : Attempt) : Attempt :=
  let a := with_config a (ConnectConfig.set_sock (connectConfig a) socket) in
  record (EClientConnect (connectConfig a)) a.

Definition proxy_addr (proxy : Proxy.t) : string :=
  Proxy.host proxy ++ ":" ++ string_of_Z (Proxy.port proxy).

(** The reaction of an attempt to one event. *)
Definition step (a : Attempt) (ev : Event) : Attempt :=
  match ev with
  | SshReady now => emit_ready now a
  | SshError err => emit_error err a
  | SshClose => emit_close a
  | UpdateSettled r =>
      match suspended a with
      | O => a
      | S n => readyHandler_resume r (with_suspended a n)
      end
  | SocksConnected socket =>
      match callbacks a with
      | socks_promise _ =>
          connect_over socket (with_callbacks a no_callbacks)
      | _ => a
      end
  | SocksFailed socksError =>
      match callbacks a with
      | socks_promise proxy =>
          handleProxyError
            (mkError ("SOCKS5 代理 " ++ proxy_addr proxy ++
                      " 连接失败: " ++ message socksError))
            (with_callbacks a no_callbacks)
      | _ => a
      end
  | HttpConnect statusCode socket =>
      match callbacks a with
      | http_req proxy =>
          if statusCode =? 200 then connect_over socket a
          else
            let a := record (ESocketDestroy socket) a in
            handleProxyError
              (mkError ("HTTP 代理 " ++ proxy_addr proxy ++
                        " 连接失败 (状态码: " ++ string_of_Z statusCode ++
                        ")")) a
      | _ => a
      end
  | HttpError err =>
      match callbacks a with
      | http_req proxy =>
          handleProxyError
            (mkError ("HTTP 代理 " ++ proxy_addr proxy ++ " 请求错误: " ++
                      message err)) a
      | _ => a
      end
  | HttpTimeout =>
      match callbacks a with
      | http_req proxy =>
          let a := record EReqDestroy a in
          handleProxyError
            (mkError ("HTTP 代理 " ++ proxy_addr proxy ++ " 连接超时")) a
      | _ => a
      end
  end.

Definition run (a : Attempt) (evs : list Event) : Attempt :=
  fold_left step evs a.

(** [establishSshConnection(connDetails, timeout)]: the promise executor.
    The client is created, the three listeners are registered, and the
    connection is started directly or through the proxy. *)
Definition establishSshConnection (connDetails : Details.t) (timeout : Z)
  : Attempt :=
  let connectConfig :=
    ConnectConfig.mk (Details.host connDetails) (Details.port connDetails)
      (Details.username connDetails) (Details.password connDetails)
      (Details.privateKey connDetails) (Details.passphrase connDetails)
      timeout 5000 10 None in
  let a :=
    mkAttempt connDetails connectConfig
      (mkEmitter [mkListener fn_enhancedReadyHandler true]
                 [mkListener fn_errorHandler false]
                 [mkListener fn_closeHandler false])
      None O no_callbacks [ENewClient] in
  match Details.proxy connDetails with
  | Some proxy =>
      if String.eqb (Proxy.type proxy) "SOCKS5" then
        let socksOptions :=
          SocksOptions.mk (Proxy.host proxy) (Proxy.port proxy) 5
            (Proxy.username proxy) (Proxy.password proxy) "connect"
            (ConnectConfig.host connectConfig)
            (ConnectConfig.port connectConfig)
            (ConnectConfig.readyTimeout connectConfig) in
        with_callbacks (record (ESocksCreateConnection socksOptions) a)
          (socks_promise proxy)
      else if String.eqb (Proxy.type proxy) "HTTP" then
        let hostport :=
          ConnectConfig.host connectConfig ++ ":" ++
          string_of_Z (ConnectConfig.port connectConfig) in
        let headers :=
          match truthyS (Proxy.username proxy) with
          | Some username =>
              let pw := match truthyS (Proxy.password proxy) with
                        | Some p => p
                        | None => EmptyString
                        end in
              [("Proxy-Authorization",
                "Basic " ++ base64 (username ++ ":" ++ pw));
               ("Proxy-Connection", "Keep-Alive");
               ("Host", hostport)]
          | None => []
          end in
        let reqOptions :=
          ReqOptions.mk "CONNECT" (Proxy.host proxy) (Proxy.port proxy)
            hostport (ConnectConfig.readyTimeout connectConfig) false
            headers in
        let a := record (EHttpRequest reqOptions) a in
        let a := with_callbacks a (http_req proxy) in
        record EReqEnd a
      else
        handleProxyError
          (mkError ("不支持的代理类型: " ++ Proxy.type proxy)) a
  | None => record (EClientConnect connectConfig) a
  end.

End Establisher.

(* ===================================================================== *)
(** * 5. The connection testers *)
(* ===================================================================== *)

(** What a test call has done by the end of the delivered events: it has
    returned a latency, thrown, or is still awaiting the establishment
    promise. *)
Inductive TestOutcome : Type :=
| Returned (r : result Z)
| Pending.

Section Tester.
Context {World : Type} {backend : Backend World}.
Variable client_end : result unit.
Variable base64 : string -> string.

(** [await establishSshConnection(...)]: events are delivered until the
    promise settles; the awaiting function is resumed at that point,
    before any later event. *)
Fixpoint await_settlement (a : Attempt) (evs : list Event) : Attempt :=
  match promise a with
  | Some _ => a
  | None =>
      match evs with
      | [] => a
      | ev :: rest => await_settlement (step client_end a ev) rest
      end
  end.

Definition say (e : Effect) (s : World * list Effect)
  : World * list Effect :=
  (fst s, (snd s ++ [e])%list).

(** The body shared by both testers once the credential set is
    resolved: establish with [TEST_TIMEOUT]; on success compute the
    latency and close the client in [finally]; on failure log and
    rethrow ([sshClient] is still [null], so [finally] closes nothing). *)
Definition probe (failure_text : string) (connDetails : Details.t)
    (startTime endTime : Z) (evs : list Event) (s : World * list Effect)
  : (World * list Effect) * TestOutcome :=
  let a := await_settlement
             (establishSshConnection client_end base64 connDetails
                TEST_TIMEOUT) evs in
  let s := (fst s, (snd s ++ trace a)%list) in
  match promise a with
  | None => (s, Pending)
  | Some (Rejected err) =>
      (say (EConsole error failure_text (Some err)) s, Returned (Err err))
  | Some Resolved =>
      let latency := endTime - startTime in
      let s := say EClientEnd s in
      match client_end with
      | Ok _ => (s, Returned (Ok latency))
      | Err endError => (s, Returned (Err endError))
      end
  end.

(** [testConnection(connectionId)]; [startTime] and [endTime] are the two
    readings of [Date.now()], [evs] the events the attempt receives. *)
Definition testConnection (connectionId : Z) (startTime endTime : Z)
    (evs : list Event) (s : World * list Effect)
  : (World * list Effect) * TestOutcome :=
  let failure_text :=
    "SshService: 测试连接 " ++ string_of_Z connectionId ++ " 失败:" in
  match getConnectionDetails connectionId s with
  | (s, Err err) =>
      (say (EConsole error failure_text (Some err)) s, Returned (Err err))
  | (s, Ok connDetails) =>
      probe failure_text connDetails startTime endTime evs s
  end.

(** [testUnsavedConnection(connectionConfig)]. *)
Definition testUnsavedConnection (connectionConfig : Config.t)
    (startTime endTime : Z) (evs : list Event) (s : World * list Effect)
  : (World * list Effect) * TestOutcome :=
  let failure_text :=
    "SshService: 测试未保存的连接到 " ++ Config.host connectionConfig ++
    ":" ++ string_of_Z (Config.port connectionConfig) ++ " 失败:" in
  match resolveInline connectionConfig s with
  | (s, Err err) =>
      (say (EConsole error failure_text (Some err)) s, Returned (Err err))
  | (s, Ok tempConnDetails) =>
      probe failure_text tempConnDetails startTime endTime evs s
  end.

End Tester.

(* ===================================================================== *)
(** * 6. Vocabulary of the properties *)
(* ===================================================================== *)

Definition is_some {A} (o : option A) : bool :=
  match o with Some _ => true | None => false end.

(** The mandatory fields of a connection row are all present. *)
Definition mandatory_present (r : RawConn.t) : bool :=
  is_some (RawConn.name r) && is_some (RawConn.host r) &&
  is_some (RawConn.port r) && is_some (RawConn.username r) &&
  is_some (RawConn.auth_method r).

(** A sample backing store: rows held in lists, ciphertexts of the form
    [enc:<plaintext>]. *)
Module Sample.
Record Store : Type := mkStore {
  connections : list RawConn.t;
  proxies : list RawProxy.t;
  keys : list (Z * StoredKey.t)
}.

Definition sample_decrypt (ct : string) : result string :=
  if String.prefix "enc:" ct
  then Ok (String.substring 4 (String.length ct - 4) ct)
  else Err (mkError "Decryption failed").

Definition backend : Backend Store := {|
  findFullConnectionById id w :=
    (w, Ok (find (fun r => RawConn.id r =? id) (connections w)));
  findProxyById id w :=
    (w, Ok (find (fun r => RawProxy.id r =? id) (proxies w)));
  getDecryptedSshKeyById id w :=
    (w, Ok (option_map snd (find (fun p => fst p =? id) (keys w))));
  decrypt := sample_decrypt
|}.

Definition conn (id : Z) (auth : AuthMethod) (pw : option string)
    (key_id : option Z) (key pp : option string)
    (proxy : option (Z * string)) : RawConn.t :=
  RawConn.mk id (Some "srv") (Some "10.0.0.5") (Some 22) (Some "root")
    (Some auth) pw key_id key pp
    (option_map fst proxy)
    (option_map (fun _ => "px") proxy)
    (option_map snd proxy)
    (option_map (fun _ => "10.0.0.1") proxy)
    (option_map (fun _ => 1080) proxy)
    None None.

Definition store : Store := {|
  connections :=
    [ conn 1 password_auth (Some "enc:secret") None None None None;
      conn 2 key_auth None (Some 7) (Some "enc:INLINE") (Some "enc:pp")
        None;
      conn 3 key_auth None (Some 9) (Some "enc:INLINE") None None;
      conn 4 key_auth None None None None None;
      conn 5 password_auth (Some "enc:secret") None None None
        (Some (2, "SOCKS4"));
      conn 6 password_auth (Some "enc:secret") None None None
        (Some (1, "HTTP")) ];
  proxies :=
    [ RawProxy.mk 1 (Some "px") (Some "HTTP") (Some "10.0.0.1")
        (Some 3128) (Some "u") (Some "enc:pw");
      RawProxy.mk 2 (Some "old") (Some "SOCKS4") (Some "10.0.0.2")
        (Some 1080) None None ];
  keys := [ (7, StoredKey.mk "PK7" (Some "pp7")) ]
|}.

Definition unsaved (auth : AuthMethod) (key_id proxy_id : option Z)
  : Config.t :=
  Config.mk "10.0.0.5" 22 "root" auth (Some "pw") (Some "KEY") None
    key_id proxy_id.
End Sample.

Section ResolverVocabulary.
Context {World : Type} {backend : Backend World}.

(** The proxy columns of a connection row resolve: no proxy is
    referenced, or its mandatory columns are present, its type is
    supported and its password (if any) decrypts. *)
Definition proxy_part_valid (r : RawConn.t) : bool :=
  match truthyZ (RawConn.proxy_db_id r) with
  | None => true
  | Some _ =>
      is_some (RawConn.proxy_name r) && is_some (RawConn.proxy_host r) &&
      is_some (RawConn.proxy_port r) &&
      match RawConn.proxy_type r with
      | Some t => negb (unsupported_proxy_type t)
      | None => false
      end &&
      match truthyS (RawConn.proxy_encrypted_password r) with
      | Some ct => match decrypt ct with Ok _ => true | Err _ => false end
      | None => true
      end
  end.

(** The steps of [getConnectionDetails] that precede its proxy block:
    the mandatory fields, then the credentials. *)
Definition credentials_stage (connectionId : Z) (rawConnInfo : RawConn.t)
  : M World Details.t :=
  (fullConnInfo <- initial_details connectionId rawConnInfo ;;
   resolve_credentials connectionId rawConnInfo fullConnInfo)%resolver.

(** The three asynchronous collaborators leave the backing data as they
    found it. *)
Definition read_only_backend : Prop :=
  (forall id w, fst (findFullConnectionById id w) = w) /\
  (forall id w, fst (findProxyById id w) = w) /\
  (forall id w, fst (getDecryptedSshKeyById id w) = w).

(** The plaintext secrets of a credential set are exclusive per
    authentication mode. *)
Definition secrets_exclusive (d : Details.t) : Prop :=
  match Details.auth_method d with
  | password_auth =>
      Details.privateKey d = None /\ Details.passphrase d = None
  | key_auth => Details.password d = None
  end.
End ResolverVocabulary.

(** Calls of [resolve] and [reject] among the effects of an attempt. *)
Definition is_notification (e : Effect) : bool :=
  match e with
  | EResolve | EReject _ => true
  | _ => false
  end.

Definition notifications (tr : list Effect) : list Effect :=
  filter is_notification tr.


Fixpoint count (p : Effect -> bool) (l : list Effect) : nat :=
  match l with
  | [] => O
  | e :: rest => if p e then S (count p rest) else count p rest
  end.

(** Calls of [sshClient.end()] and creations of a [Client]. *)
Definition is_end (e : Effect) : bool :=
  match e with EClientEnd => true | _ => false end.
Definition is_new_client (e : Effect) : bool :=
  match e with ENewClient => true | _ => false end.
Definition is_connect (e : Effect) : bool :=
  match e with EClientConnect _ => true | _ => false end.

Definition count_ends (l : list Effect) : nat := count is_end l.
Definition count_clients (l : list Effect) : nat := count is_new_client l.

(** Events of the SSH transport other than 'ready'. *)
Definition error_or_close (ev : Event) : Prop :=
  match ev with
  | SshError _ | SshClose => True
  | _ => False
  end.


(** A credential set whose proxy, if any, has one of the two supported
    types; the resolver produces no other. *)
Definition proxy_supported (d : Details.t) : Prop :=
  match Details.proxy d with
  | None => True
  | Some proxy => Proxy.type proxy = "SOCKS5" \/ Proxy.type proxy = "HTTP"
  end.

(** The listeners of a client never exceed those registered at the start
    of the attempt. *)
Definition listeners_subset (em : Emitter) : Prop :=
  (on_ready em = [] \/
   on_ready em = [mkListener fn_enhancedReadyHandler true]) /\
  (on_error em = [] \/ on_error em = [mkListener fn_errorHandler false]) /\
  (on_close em = [] \/ on_close em = [mkListener fn_closeHandler false]).

(** The listeners registered at the start of an attempt. *)
Definition initial_emitter : Emitter :=
  mkEmitter [mkListener fn_enhancedReadyHandler true]
            [mkListener fn_errorHandler false]
            [mkListener fn_closeHandler false].

(** An attempt on which no transport event has been handled yet. *)
Definition fresh (a : Attempt) : Prop :=
  emitter a = initial_emitter /\ promise a = None /\ suspended a = O /\
  notifications (trace a) = [] /\ count_ends (trace a) = O.

(** An attempt whose error and close listeners have been removed. *)
Definition detached (a : Attempt) : Prop :=
  on_error (emitter a) = [] /\ on_close (emitter a) = [].

(** Two states of an attempt that agree on everything a caller observes:
    settlement, notifications issued, calls of [end], and on the
    listeners and suspended handlers that decide what happens next. *)
Definition same_outcome (a a' : Attempt) : Prop :=
  emitter a' = emitter a /\ promise a' = promise a /\
  suspended a' = suspended a /\
  notifications (trace a') = notifications (trace a) /\
  count_ends (trace a') = count_ends (trace a).

(** The state every attempt is in until its promise settles, and at the
    moment it settles: the client exists once; [end] has been called once
    if the promise is rejected and not at all otherwise; a suspended or
    completed ready handler has issued the timestamp update. *)
Definition attempt_inv (a : Attempt) : Prop :=
  listeners_subset (emitter a) /\
  count_clients (trace a) = 1%nat /\
  match promise a with
  | Some (Rejected _) => count_ends (trace a) = 1%nat
  | _ => count_ends (trace a) = 0%nat
  end /\
  ((0 < suspended a)%nat \/ promise a = Some Resolved ->
   exists seconds,
     In (EUpdateLastConnected (Details.id (connDetails a)) seconds)
        (trace a)).

(** Sample credential sets and events. *)
Module SampleAttempt.
Definition direct : Details.t :=
  Details.mk 1 "srv" "10.0.0.5" 22 "root" password_auth (Some "secret")
    None None None.
Definition via_http : Details.t :=
  Details.mk 6 "srv" "10.0.0.5" 22 "root" password_auth (Some "secret")
    None None
    (Some (Proxy.mk 1 "px" "HTTP" "10.0.0.1" 3128 (Some "u") (Some "pw"))).
Definition refused : Error := mkError "connect ECONNREFUSED".
Definition base64 (s : string) : string := "b64(" ++ s ++ ")".
End SampleAttempt.

(* ===================================================================== *)
(** * 6.1. The shell channel, and further vocabulary *)
(* ===================================================================== *)




(** What is left of [s] after its first [length p] characters. *)
Definition drop_prefix (p s : string) : string :=
  String.substring (String.length p) (String.length s - String.length p) s.

Definition is_update (e : Effect) : bool :=
  match e with EUpdateLastConnected _ _ => true | _ => false end.
Definition is_resolve (e : Effect) : bool :=
  match e with EResolve => true | _ => false end.
Definition is_vault_lookup (e : Effect) : bool :=
  match e with EGetDecryptedSshKeyById _ => true | _ => false end.
Definition is_proxy_lookup (e : Effect) : bool :=
  match e with EFindProxyById _ => true | _ => false end.
Definition is_decrypt (e : Effect) : bool :=
  match e with EDecrypt _ _ => true | _ => false end.


(** The connection settings [establishSshConnection] derives from a
    credential set and a timeout, before any tunnel socket is attached. *)
Definition config_of (d : Details.t) (timeout : Z) : ConnectConfig.t :=
  ConnectConfig.mk (Details.host d) (Details.port d) (Details.username d)
    (Details.password d) (Details.privateKey d) (Details.passphrase d)
    timeout 5000 10 None.

(** Two connection settings that differ at most in the socket. *)
Definition same_settings (c c' : ConnectConfig.t) : Prop :=
  forall socket, ConnectConfig.set_sock c socket = ConnectConfig.set_sock c' socket.

(** Events other than 'ready' on the client. *)
Definition not_ready (ev : Event) : Prop :=
  match ev with SshReady _ => False | _ => True end.

(** The three ways the HTTP CONNECT request reports a failure. *)
Definition http_failure (ev : Event) : Prop :=
  match ev with
  | HttpError _ | HttpTimeout => True
  | HttpConnect statusCode _ => statusCode <> 200
  | _ => False
  end.

(** What every state of an attempt satisfies about its ready handler: it
    is still registered or has issued the one timestamp update; every
    issued update is either still awaited or was followed by [resolve];
    and updates carry the identifier of the credential set. *)
Definition once_inv (a : Attempt) : Prop :=
  (length (on_ready (emitter a)) + count is_update (trace a) = 1)%nat /\
  (count is_resolve (trace a) + suspended a = count is_update (trace a))%nat
  /\ forall id seconds,
       In (EUpdateLastConnected id seconds) (trace a) ->
       id = Details.id (connDetails a).

(** What every state of an attempt satisfies about [sshClient.connect]:
    the settings are those derived at the start, and a socket is attached
    exactly when the attempt goes through a proxy. *)
Definition connect_inv (d : Details.t) (timeout : Z) (a : Attempt) : Prop :=
  same_settings (connectConfig a) (config_of d timeout) /\
  (Details.proxy d = None -> callbacks a = no_callbacks) /\
  forall cfg,
    In (EClientConnect cfg) (trace a) ->
    same_settings cfg (config_of d timeout) /\
    (ConnectConfig.sock cfg = None <-> Details.proxy d = None).



(** Further sample data: a row with an inline key and passphrase, and
    credential sets behind a SOCKS5 proxy and behind a proxy of an
    unsupported type. *)
Module MoreSamples.
Definition store : Sample.Store := {|
  Sample.connections :=
    [ Sample.conn 7 key_auth None (Some 0) (Some "enc:INLINE")
        (Some "enc:pp") None;
      Sample.conn 8 password_auth (Some "secret-in-clear") None None None
        None ];
  Sample.proxies := [];
  Sample.keys := []
|}.


Definition old_proxy : Proxy.t :=
  Proxy.mk 2 "old" "SOCKS4" "10.0.0.2" 1080 None None.
Definition via_socks4 : Details.t :=
  Details.mk 5 "srv" "10.0.0.5" 22 "root" password_auth (Some "secret")
    None None (Some old_proxy).

Definition http_proxy : Proxy.t :=
  Proxy.mk 1 "px" "HTTP" "10.0.0.1" 3128 (Some "u") (Some "pw").
End MoreSamples.

(* ===================================================================== *)
(** * 7. Properties of the credential resolver *)
(* ===================================================================== *)

Ltac unfold_resolver :=
  unfold getConnectionDetails, resolveInline, initial_details,
    resolve_credentials, resolve_proxy, temp_credentials, temp_proxy,
    decrypt_optional, decrypt_field, require, try_catch, bind, ret, throw,
    perform, await_call in *.

(** Case analysis on an innermost [match] of the goal. *)
Ltac break_match :=
  match goal with
  | |- context [match ?x with _ => _ end] =>
      lazymatch x with
      | context [match _ with _ => _ end] => fail
      | _ => destruct x eqn:?
      end
  end.

Ltac break_all := repeat (break_match; simpl in *; try congruence).

#[local] Arguments String.append : simpl never.
#[local] Arguments string_of_Z : simpl never.

Section ResolverFacts.
Context {World : Type} {backend : Backend World}.

(** The effect log is only ever extended, and nothing but the backing
    data decides the outcome: a call started with log [l] behaves as
    the call started with the empty log, with [l] in front. *)
Lemma getConnectionDetails_frame (connectionId : Z) (w : World)
    (l : list Effect) :
  getConnectionDetails connectionId (w, l) =
  let '((w', tr), r) := getConnectionDetails connectionId (w, []) in
  ((w', (l ++ tr)%list), r).
Proof.
  unfold_resolver. simpl.
  break_all; rewrite <- ?app_assoc; reflexivity.
Qed.

Lemma resolveInline_frame (connectionConfig : Config.t) (w : World)
    (l : list Effect) :
  resolveInline connectionConfig (w, l) =
  let '((w', tr), r) := resolveInline connectionConfig (w, []) in
  ((w', (l ++ tr)%list), r).
Proof.
  unfold_resolver. simpl.
  break_all; rewrite <- ?app_assoc; simpl; rewrite ?app_nil_r; reflexivity.
Qed.

(** No resolver call performs anything but lookups, decryption and
    console output. *)
Lemma getConnectionDetails_read_only (connectionId : Z) (w : World) :
  Forall (fun e => is_read_only e = true)
         (snd (fst (getConnectionDetails connectionId (w, [])))).
Proof.
  unfold_resolver. simpl.
  break_all; repeat constructor.
Qed.

Lemma resolveInline_read_only (connectionConfig : Config.t) (w : World) :
  Forall (fun e => is_read_only e = true)
         (snd (fst (resolveInline connectionConfig (w, [])))).
Proof.
  unfold_resolver. simpl.
  break_all; repeat constructor.
Qed.

Lemma read_only_not_network (e : Effect) :
  is_read_only e = true -> is_network e = false.
Proof. destruct e; simpl; congruence. Qed.

Lemma getConnectionDetails_world (connectionId : Z) (w : World) :
  read_only_backend ->
  fst (fst (getConnectionDetails connectionId (w, []))) = w.
Proof.
  intros (Hc & _ & Hk).
  unfold_resolver. simpl.
  pose proof (Hc connectionId w) as Hcw.
  destruct (findFullConnectionById connectionId w) as [w1 r1].
  simpl in Hcw. subst w1.
  break_all;
    match goal with
    | H : getDecryptedSshKeyById ?k ?w0 = (?w1, _) |- _ =>
        pose proof (Hk k w0) as Hkw; rewrite H in Hkw; simpl in Hkw;
        congruence
    end.
Qed.

(** C2.  A connection row with key authentication that carries both a
    stored-key reference and an inline encrypted key is resolved from
    the key vault: [decrypt] is applied to no connection secret (only,
    possibly, to the proxy password), every successful resolution
    returns the vault entry's private key and passphrase, and a
    dangling reference makes the resolution fail, with the
    key-not-found message when the mandatory fields are present.  With
    the mandatory fields present and no proxy the resolution
    succeeds after exactly the two lookups. *)
Theorem stored_key_takes_precedence :
  forall (connectionId : Z) (w w1 : World) (rawConnInfo : RawConn.t)
         (key_id : Z) (inline_key : string),
    findFullConnectionById connectionId w = (w1, Ok (Some rawConnInfo)) ->
    RawConn.auth_method rawConnInfo = Some key_auth ->
    truthyZ (RawConn.ssh_key_id rawConnInfo) = Some key_id ->
    truthyS (RawConn.encrypted_private_key rawConnInfo) = Some inline_key ->
    let out := getConnectionDetails connectionId (w, []) in
    (forall f ct, In (EDecrypt f ct) (snd (fst out)) ->
                  f = f_proxy_encrypted_password)
    /\ (forall d, snd out = Ok d ->
          exists w2 k,
            getDecryptedSshKeyById key_id w1 = (w2, Ok (Some k)) /\
            Details.privateKey d = Some (StoredKey.privateKey k) /\
            Details.passphrase d = StoredKey.passphrase k /\
            Details.password d = None)
    /\ (forall w2, getDecryptedSshKeyById key_id w1 = (w2, Ok None) ->
          exists e, snd out = Err e /\
            (mandatory_present rawConnInfo = true ->
             message e =
               "处理凭证失败: " ++
               ("关联的 SSH 密钥 (ID: " ++ string_of_Z key_id ++
                ") 未找到。")))
    /\ (forall w2 k,
          getDecryptedSshKeyById key_id w1 = (w2, Ok (Some k)) ->
          mandatory_present rawConnInfo = true ->
          truthyZ (RawConn.proxy_db_id rawConnInfo) = None ->
          exists d,
            out = ((w2, [EFindFullConnectionById connectionId;
                         EGetDecryptedSshKeyById key_id]), Ok d)).
Proof.
  intros * Hf Ha Hk Hi out. subst out.
  unfold mandatory_present.
  unfold_resolver. simpl. rewrite Hf, Ha, Hk. simpl.
  repeat split.
  - intros f ct. break_all; intros Hin;
      repeat (destruct Hin as [Hin | Hin]; try congruence);
      try contradiction.
  - intros d. break_all; intros Hd; inversion Hd; subst;
      eexists _, _; repeat split; reflexivity.
  - intros w2 Hv.
    repeat (first [rewrite Hv | break_match]; simpl in *; try congruence);
      eexists; split; try reflexivity;
      simpl; intros; try discriminate; reflexivity.
  - intros w2 k Hv Hm Hp.
    destruct (RawConn.name rawConnInfo); try discriminate.
    destruct (RawConn.host rawConnInfo); try discriminate.
    destruct (RawConn.port rawConnInfo); try discriminate.
    destruct (RawConn.username rawConnInfo); try discriminate.
    simpl. rewrite Hv. simpl. rewrite Hp. simpl. eexists. reflexivity.
Qed.

(** C7.  A connection row with key authentication and neither a
    stored-key reference nor an inline key does not make the resolver
    throw: the credential step only logs a warning.  Every successful
    resolution of such a row leaves password, private key and
    passphrase undefined; with the mandatory fields present and a
    resolvable proxy part the resolution does succeed and the warning
    is in the log. *)
Theorem key_auth_without_key_resolves_empty :
  forall (connectionId : Z) (w w1 : World) (rawConnInfo : RawConn.t),
    findFullConnectionById connectionId w = (w1, Ok (Some rawConnInfo)) ->
    RawConn.auth_method rawConnInfo = Some key_auth ->
    truthyZ (RawConn.ssh_key_id rawConnInfo) = None ->
    truthyS (RawConn.encrypted_private_key rawConnInfo) = None ->
    let out := getConnectionDetails connectionId (w, []) in
    let warning :=
      EConsole warn
        ("SshService: Connection " ++ string_of_Z connectionId ++
         " uses key auth but has neither ssh_key_id nor encrypted_private_key.")
        None in
    (forall d s, Details.auth_method d = key_auth ->
       resolve_credentials connectionId rawConnInfo d s =
       ((fst s, (snd s ++ [warning])%list), Ok d))
    /\ (forall d, snd out = Ok d ->
          Details.privateKey d = None /\ Details.passphrase d = None /\
          Details.password d = None)
    /\ (mandatory_present rawConnInfo = true ->
        proxy_part_valid rawConnInfo = true ->
        exists d, snd out = Ok d /\ fst (fst out) = w1 /\
                  In warning (snd (fst out))).
Proof.
  intros * Hf Ha Hk Hi out warning. subst out warning.
  unfold mandatory_present, proxy_part_valid.
  repeat split.
  - intros d s Hd. unfold_resolver. rewrite Hd, Hk, Hi.
    destruct (truthyS (RawConn.encrypted_password rawConnInfo));
      reflexivity.
  - revert H. unfold_resolver. simpl. rewrite Hf, Ha, Hk, Hi. simpl.
    break_all; intros Hd; inversion Hd; reflexivity.
  - revert H. unfold_resolver. simpl. rewrite Hf, Ha, Hk, Hi. simpl.
    break_all; intros Hd; inversion Hd; reflexivity.
  - revert H. unfold_resolver. simpl. rewrite Hf, Ha, Hk, Hi. simpl.
    break_all; intros Hd; inversion Hd; reflexivity.
  - unfold is_some. unfold_resolver. simpl.
    rewrite Hf, Ha, Hk, Hi. simpl.
    break_all; intros Hm Hp; try discriminate;
      eexists; repeat split; simpl; auto 10.
Qed.

(** C8.  Every credential set the resolver produces, from a persisted
    row or from an inline test configuration, keeps the plaintext
    secrets exclusive per authentication mode. *)
Theorem resolved_secrets_exclusive :
  forall (s : World * list Effect),
    (forall connectionId d,
       snd (getConnectionDetails connectionId s) = Ok d ->
       secrets_exclusive d)
    /\ (forall connectionConfig d,
          snd (resolveInline connectionConfig s) = Ok d ->
          secrets_exclusive d).
Proof.
  intros s. split.
  - intros connectionId d. unfold_resolver.
    break_all; intros Hd; inversion Hd; subst;
      unfold secrets_exclusive; simpl; auto.
  - intros connectionConfig d.
    destruct connectionConfig as [h p u [|] pw pk pp kid pid];
      unfold_resolver; simpl;
      break_all; intros Hd; inversion Hd; subst;
      unfold secrets_exclusive; simpl; auto.
Qed.

(** C9.  Against collaborators that leave the backing data unchanged,
    two consecutive calls of [getConnectionDetails] on one identifier
    return the same outcome (the same credential set, or the same
    error), the backing data is what it was, and the calls perform
    lookups, decryption and console output only. *)
Theorem resolution_is_repeatable :
  read_only_backend ->
  forall (connectionId : Z) (w : World),
    let first := getConnectionDetails connectionId (w, []) in
    let second := getConnectionDetails connectionId (fst first) in
    snd second = snd first
    /\ fst (fst first) = w
    /\ fst (fst second) = w
    /\ snd (fst second) = (snd (fst first) ++ snd (fst first))%list
    /\ Forall (fun e => is_read_only e = true) (snd (fst second)).
Proof.
  intros Hro connectionId w. cbv zeta.
  pose proof (getConnectionDetails_world connectionId w Hro) as Hw.
  pose proof (getConnectionDetails_read_only connectionId w) as Hr.
  destruct (getConnectionDetails connectionId (w, []))
    as [[w1 l1] r1] eqn:Hfirst.
  simpl in Hw, Hr. subst w1. simpl fst.
  rewrite getConnectionDetails_frame, Hfirst. simpl.
  repeat split; auto.
  apply Forall_app. split; exact Hr.
Qed.

End ResolverFacts.

(* ===================================================================== *)
(** * 8. Properties of the session establisher *)
(* ===================================================================== *)

Lemma count_app (p : Effect -> bool) (l1 l2 : list Effect) :
  count p (l1 ++ l2) = (count p l1 + count p l2)%nat.
Proof.
  induction l1 as [|e l1 IH]; simpl; [reflexivity|].
  destruct (p e); rewrite IH; reflexivity.
Qed.

Lemma string_app_assoc (s1 s2 s3 : string) :
  (s1 ++ s2) ++ s3 = s1 ++ (s2 ++ s3).
Proof.
  induction s1 as [|c s1 IH]; [reflexivity|].
  change (String c ((s1 ++ s2) ++ s3) = String c (s1 ++ s2 ++ s3)).
  rewrite IH. reflexivity.
Qed.

Lemma notifications_app (l1 l2 : list Effect) :
  notifications (l1 ++ l2) = (notifications l1 ++ notifications l2)%list.
Proof. apply filter_app. Qed.

Lemma count_read_only (p : Effect -> bool) (l : list Effect) :
  (forall e, is_read_only e = true -> p e = false) ->
  Forall (fun e => is_read_only e = true) l ->
  count p l = O.
Proof.
  intros Hp. induction 1 as [|e l He _ IH]; simpl; [reflexivity|].
  rewrite (Hp e He). exact IH.
Qed.

(** Evaluation of the handlers on an attempt given by its fields;
    call-by-value, so that a state is computed once before it is used. *)
Ltac eval_attempt :=
  cbv beta iota zeta delta
    [step emit_ready emit_error emit_close call_ready call_error call_close
     enhancedReadyHandler readyHandler readyHandler_resume errorHandler
     closeHandler handleProxyError connect_over resolve reject removeReady
     removeError removeClose record record_all with_emitter with_promise
     with_suspended with_callbacks with_config remove_listener existsb
     ReadyFn_eqb target fold_left orb
     connDetails connectConfig emitter promise suspended callbacks trace
     on_ready on_error on_close fn once].

Section EstablisherFacts.
Variable client_end : result unit.
Variable base64 : string -> string.

Abbreviation step := (step client_end).
Abbreviation run := (run client_end).
Abbreviation establish := (establishSshConnection client_end base64).

Lemma run_app (a : Attempt) (evs1 evs2 : list Event) :
  run a (evs1 ++ evs2) = run (run a evs1) evs2.
Proof. apply fold_left_app. Qed.

Lemma run_cons (a : Attempt) (ev : Event) (evs : list Event) :
  run a (ev :: evs) = run (step a ev) evs.
Proof. reflexivity. Qed.

Lemma run_nil (a : Attempt) : run a [] = a.
Proof. reflexivity. Qed.

(** Case analysis on one step of a reachable attempt (its listener
    arrays, the event, the suspended handlers, the live proxy
    callbacks), then evaluation. *)
Ltac step_cases a H ev :=
  let d := fresh "d" in
  let cfg := fresh "cfg" in
  let rl := fresh "rl" in
  let el := fresh "el" in
  let cl := fresh "cl" in
  let p := fresh "p" in
  let n := fresh "n" in
  let cb := fresh "cb" in
  let tr := fresh "tr" in
  let Hr := fresh "Hr" in
  let He := fresh "He" in
  let Hc := fresh "Hc" in
  destruct a as [d cfg [rl el cl] p n cb tr];
  destruct H as ([Hr|Hr] & [He|He] & [Hc|Hc]);
  simpl in Hr, He, Hc; subst rl el cl;
  (destruct ev;
   [ | | | destruct n
     | destruct cb | destruct cb | destruct cb | destruct cb
     | destruct cb ]);
  eval_attempt;
  try match goal with
      | |- context [?x =? 200] => destruct (x =? 200) eqn:?
      end.

Ltac count_trace :=
  unfold count_clients, count_ends in *;
  rewrite ?count_app; simpl;
  repeat match goal with
         | |- context [match ?x with _ => _ end] => is_var x; destruct x
         end; simpl; try lia.

(** ** Invariants of a reachable attempt *)

Lemma step_listeners (a : Attempt) (ev : Event) :
  listeners_subset (emitter a) ->
  listeners_subset (emitter (step a ev)).
Proof.
  intros H. unfold listeners_subset. step_cases a H ev; auto.
Qed.

Lemma step_connDetails (a : Attempt) (ev : Event) :
  listeners_subset (emitter a) ->
  connDetails (step a ev) = connDetails a.
Proof.
  intros H. step_cases a H ev; reflexivity.
Qed.

Lemma step_clients (a : Attempt) (ev : Event) :
  listeners_subset (emitter a) ->
  count_clients (trace (step a ev)) = count_clients (trace a).
Proof.
  intros H. step_cases a H ev; count_trace.
Qed.

(** Once decided, the outcome of the promise never changes. *)
Lemma step_promise_stable (a : Attempt) (ev : Event) (s : Settlement) :
  listeners_subset (emitter a) ->
  promise a = Some s -> promise (step a ev) = Some s.
Proof.
  intros H. step_cases a H ev; intros Hp; rewrite ?Hp; auto.
Qed.

(** Up to the moment the promise settles, [end] has been called once if
    it is rejected and not at all otherwise. *)
Lemma step_ends (a : Attempt) (ev : Event) :
  listeners_subset (emitter a) ->
  promise a = None ->
  count_ends (trace a) = O ->
  match promise (step a ev) with
  | Some (Rejected _) => count_ends (trace (step a ev)) = 1%nat
  | _ => count_ends (trace (step a ev)) = O
  end.
Proof.
  intros H. step_cases a H ev; intros Hp H0; rewrite ?Hp;
    try (cbv iota); count_trace.
Qed.

(** A suspended or completed ready handler has issued the timestamp
    update for the identifier of the credential set. *)
Lemma step_update (a : Attempt) (ev : Event) :
  listeners_subset (emitter a) ->
  ((0 < suspended a)%nat \/ promise a = Some Resolved ->
   exists seconds,
     In (EUpdateLastConnected (Details.id (connDetails a)) seconds)
        (trace a)) ->
  ((0 < suspended (step a ev))%nat \/
   promise (step a ev) = Some Resolved ->
   exists seconds,
     In (EUpdateLastConnected (Details.id (connDetails (step a ev)))
           seconds) (trace (step a ev))).
Proof.
  intros H. step_cases a H ev; intros Hu Hs;
    first
      [ destruct Hu as [t Ht];
        [ destruct Hs as [Hs|Hs];
          first
            [ left; lia
            | right;
              match goal with
              | p : option Settlement |- _ =>
                  destruct p as [[|?]|]; simpl in Hs; congruence
              end ]
        | exists t; rewrite ?in_app_iff; tauto ]
      | match goal with
        | |- context [EUpdateLastConnected _ ?t :: _] => exists t
        end;
        rewrite ?in_app_iff; simpl; tauto ].
Qed.


Lemma run_promise_stable (evs : list Event) (a : Attempt) (s : Settlement) :
  listeners_subset (emitter a) ->
  promise a = Some s -> promise (run a evs) = Some s.
Proof.
  revert a. induction evs as [|ev evs IH]; intros a H Hp; simpl; auto.
  apply IH; [apply step_listeners, H | apply step_promise_stable; auto].
Qed.

(** ** The start of an attempt *)

Ltac eval_establish d :=
  unfold establishSshConnection;
  let proxy := fresh "proxy" in
  destruct (Details.proxy d) as [proxy|];
  [ destruct (String.eqb (Proxy.type proxy) "SOCKS5") eqn:?;
    [ | destruct (String.eqb (Proxy.type proxy) "HTTP") eqn:? ] | ];
  eval_attempt.

Lemma establish_listeners (d : Details.t) (timeout : Z) :
  listeners_subset (emitter (establish d timeout)).
Proof.
  unfold listeners_subset. eval_establish d; auto.
Qed.

Lemma establish_connDetails (d : Details.t) (timeout : Z) :
  connDetails (establish d timeout) = d.
Proof. eval_establish d; reflexivity. Qed.

Lemma establish_inv (d : Details.t) (timeout : Z) :
  attempt_inv (establish d timeout).
Proof.
  unfold attempt_inv. split; [apply establish_listeners|].
  eval_establish d; repeat split;
    try (intros [Hs|Hs]; [simpl in Hs; lia | discriminate]);
    count_trace.
Qed.

Lemma establish_fresh (d : Details.t) (timeout : Z) :
  proxy_supported d -> fresh (establish d timeout).
Proof.
  unfold proxy_supported, fresh.
  eval_establish d; intros Hp;
    try (destruct Hp as [Hp|Hp]; rewrite Hp in *; simpl in *; discriminate);
    repeat split; auto.
Qed.

(** ** The first transport event on a fresh attempt *)

Ltac by_fields a :=
  let d := fresh "d" in
  let cfg := fresh "cfg" in
  let rl := fresh "rl" in
  let el := fresh "el" in
  let cl := fresh "cl" in
  let p := fresh "p" in
  let n := fresh "n" in
  let cb := fresh "cb" in
  let tr := fresh "tr" in
  destruct a as [d cfg [rl el cl] p n cb tr].

Ltac outcome_trace :=
  unfold count_ends in *;
  rewrite ?notifications_app, ?count_app; simpl;
  repeat match goal with
         | H : notifications _ = _ |- _ => rewrite H
         | H : count _ _ = _ |- _ => rewrite H
         end;
  repeat match goal with
         | |- context [match ?x with _ => _ end] => is_var x; destruct x
         end; simpl; try reflexivity; try lia.

Lemma fresh_error (a : Attempt) (err : Error) :
  fresh a ->
  let a' := step a (SshError err) in
  detached a' /\ promise a' = Some (Rejected err) /\
  notifications (trace a') = [EReject err] /\
  count_ends (trace a') = 1%nat.
Proof.
  unfold fresh, detached, initial_emitter. by_fields a. simpl.
  intros (He & Hp & Hn & Hno & Hc). inversion He; subst.
  eval_attempt. repeat split; outcome_trace.
Qed.

Lemma fresh_close (a : Attempt) :
  fresh a ->
  let a' := step a SshClose in
  detached a' /\ promise a' = None /\ suspended a' = O /\
  trace a' = trace a.
Proof.
  unfold fresh, detached, initial_emitter. by_fields a. simpl.
  intros (He & Hp & Hn & Hno & Hc). inversion He; subst.
  eval_attempt. repeat split.
Qed.



(** Later 'error' and 'close' events on a detached attempt change
    nothing a caller observes. *)
Lemma detached_step (a : Attempt) (ev : Event) :
  detached a -> error_or_close ev -> same_outcome a (step a ev).
Proof.
  unfold detached, same_outcome. by_fields a. simpl.
  intros (He & Hc) Hev. subst.
  destruct ev; try contradiction; eval_attempt; repeat split;
    outcome_trace; rewrite ?app_nil_r; auto.
Qed.


(** ** The HTTP tunnel *)

Lemma step_connect_http (a : Attempt) (ev : Event) (proxy : Proxy.t)
    (c : ConnectConfig.t) :
  listeners_subset (emitter a) ->
  callbacks a = http_req proxy ->
  callbacks (step a ev) = http_req proxy /\
  (In (EClientConnect c) (trace (step a ev)) ->
   In (EClientConnect c) (trace a) \/
   exists socket, ev = HttpConnect 200 socket).
Proof.
  intros H. step_cases a H ev; intros Hcb; try discriminate;
    (split; [exact Hcb|]);
    rewrite ?in_app_iff; simpl;
    try match goal with
        | E : (_ =? 200) = true |- _ => apply Z.eqb_eq in E; subst
        end;
    intros Hin; decompose [or] Hin; try discriminate; try contradiction;
    auto; try (right; eexists; reflexivity);
    repeat match goal with
           | Hm : In _ (match ?x with _ => _ end) |- _ =>
               destruct x; simpl in Hm; decompose [or] Hm;
               try discriminate; try contradiction
           end.
Qed.

Lemma run_connect_http (evs : list Event) (a : Attempt) (proxy : Proxy.t)
    (c : ConnectConfig.t) :
  listeners_subset (emitter a) ->
  callbacks a = http_req proxy ->
  In (EClientConnect c) (trace (run a evs)) ->
  In (EClientConnect c) (trace a) \/
  exists socket, In (HttpConnect 200 socket) evs.
Proof.
  revert a. induction evs as [|ev evs IH]; intros a H Hcb Hin; simpl in *.
  - auto.
  - destruct (step_connect_http a ev proxy c H Hcb) as [Hcb' Hstep].
    destruct (IH (step a ev) (step_listeners a ev H) Hcb' Hin)
      as [Hin'|[socket Hs]].
    + destruct (Hstep Hin') as [Ha|[socket Hs]]; eauto.
    + eauto.
Qed.

(** C3.  With an HTTP proxy the attempt starts pending with the
    CONNECT request sent and the SSH transport not yet connected.  A
    response 200 hands the tunnel socket to [sshClient.connect] and
    leaves the attempt pending.  Any other status code destroys the
    socket first and then fails the attempt with an error whose message
    contains the status code, without connecting.  Whatever events
    arrive, the SSH transport is connected only after a response 200. *)
Theorem http_tunnel_requires_status_200 :
  forall (connDetails : Details.t) (timeout : Z) (proxy : Proxy.t),
    Details.proxy connDetails = Some proxy ->
    Proxy.type proxy = "HTTP" ->
    let start := establish connDetails timeout in
    promise start = None
    /\ count is_connect (trace start) = O
    /\ (forall socket,
          let a := step start (HttpConnect 200 socket) in
          promise a = None /\
          trace a =
            (trace start ++
             [EClientConnect
                (ConnectConfig.set_sock (connectConfig start) socket)])%list)
    /\ (forall statusCode socket,
          statusCode <> 200 ->
          let a := step start (HttpConnect statusCode socket) in
          exists err after,
            promise a = Some (Rejected err) /\
            (exists pre post,
               message err = pre ++ string_of_Z statusCode ++ post) /\
            trace a =
              (trace start ++ ESocketDestroy socket :: after)%list /\
            notifications after = [EReject err] /\
            count is_connect after = O)
    /\ (forall evs cfg,
          In (EClientConnect cfg) (trace (run start evs)) ->
          exists socket, In (HttpConnect 200 socket) evs).
Proof.
  intros connDetails timeout proxy Hproxy Htype start.
  assert (Hstart :
    exists cfg hdrs,
      start =
        mkAttempt connDetails cfg initial_emitter None O (http_req proxy)
          [ENewClient; EHttpRequest hdrs; EReqEnd]).
  { subst start. unfold establishSshConnection.
    rewrite Hproxy, Htype. simpl String.eqb. cbv iota.
    eval_attempt. eexists _, _. reflexivity. }
  destruct Hstart as (cfg & hdrs & Hstart). rewrite Hstart.
  repeat split.
  - intros statusCode socket Hne.
    destruct (statusCode =? 200) eqn:E;
      [apply Z.eqb_eq in E; contradiction|].
    unfold initial_emitter. eval_attempt. rewrite E.
    destruct client_end; simpl;
      (eexists _, _; split; [reflexivity|]; split;
       [ exists ("HTTP 代理 " ++ proxy_addr proxy ++ " 连接失败 (状态码: "), ")";
         simpl; rewrite !string_app_assoc; reflexivity
       | split; [reflexivity|split; reflexivity] ]).
  - intros evs c Hin.
    assert (Hl : listeners_subset (emitter start))
      by apply establish_listeners.
    rewrite Hstart in Hl.
    destruct (run_connect_http evs _ proxy c Hl eq_refl Hin)
      as [Hin0|Hs]; [|exact Hs].
    simpl in Hin0. decompose [or] Hin0; try discriminate; contradiction.
Qed.



End EstablisherFacts.

(* ===================================================================== *)
(** * 9. Properties of the connection testers *)
(* ===================================================================== *)

Section TesterFacts.
Context {World : Type} {backend : Backend World}.
Variable client_end : result unit.
Variable base64 : string -> string.

Abbreviation await := (await_settlement client_end).

Lemma step_inv (a : Attempt) (ev : Event) :
  promise a = None -> attempt_inv a ->
  attempt_inv (step client_end a ev).
Proof.
  unfold attempt_inv. intros Hp (Hl & Hc & He & Hu).
  rewrite Hp in He.
  split; [apply step_listeners, Hl|].
  split; [rewrite step_clients; assumption|].
  split; [apply step_ends; assumption|].
  apply step_update; assumption.
Qed.

Lemma await_inv (evs : list Event) (a : Attempt) :
  attempt_inv a ->
  attempt_inv (await a evs) /\ connDetails (await a evs) = connDetails a.
Proof.
  revert a. induction evs as [|ev evs IH]; intros a Ha; simpl.
  - destruct (promise a); auto.
  - destruct (promise a) eqn:Hp; [auto|].
    destruct (IH (step client_end a ev) (step_inv a ev Hp Ha))
      as [Hinv Hd].
    split; [exact Hinv|].
    rewrite Hd. apply step_connDetails. apply Ha.
Qed.

(** What a probe that returns has done: one client created and [end]
    called once on it, by the failure path of the establisher or by the
    cleanup step; a probe that returns a latency has issued the
    timestamp update for the identifier of its credential set. *)
Lemma probe_returns (text : string) (d : Details.t)
    (startTime endTime : Z) (evs : list Event) (s : World * list Effect)
    (r : result Z) :
  let out := probe client_end base64 text d startTime endTime evs s in
  snd out = Returned r ->
  count_clients (snd (fst out)) = S (count_clients (snd s)) /\
  count_ends (snd (fst out)) = S (count_ends (snd s)) /\
  (forall latency, r = Ok latency ->
     latency = endTime - startTime /\
     (exists before,
        snd (fst out) = (before ++ [EClientEnd])%list /\
        count_ends before = count_ends (snd s)) /\
     exists seconds,
       In (EUpdateLastConnected (Details.id d) seconds) (snd (fst out))).
Proof.
  unfold probe.
  destruct (await_inv evs _ (establish_inv client_end base64 d TEST_TIMEOUT))
    as [(Hl & Hc & He & Hu) Hd].
  rewrite establish_connDetails in Hd.
  revert Hl Hc He Hu Hd.
  generalize (await (establishSshConnection client_end base64 d
                       TEST_TIMEOUT) evs).
  intros a Hl Hc He Hu Hd.
  destruct (promise a) as [[|err]|] eqn:Hp; simpl.
  - unfold count_clients, count_ends in *.
    destruct client_end; simpl; intros Hr; injection Hr as <-;
      rewrite !count_app, Hc, He; simpl;
      (split; [lia|]); (split; [lia|]); intros latency Hlat;
      [injection Hlat as <-|discriminate].
    split; [reflexivity|]. split.
    + eexists. split; [reflexivity|]. rewrite count_app, He. lia.
    + destruct (Hu (or_intror eq_refl)) as [seconds Hin].
      exists seconds. rewrite Hd in Hin. rewrite !in_app_iff. auto.
  - unfold count_clients, count_ends in *.
    intros Hr; injection Hr as <-.
    rewrite !count_app, Hc, He. simpl.
    split; [lia|]. split; [lia|]. intros latency Hlat. discriminate.
  - intros Hr. discriminate.
Qed.

Lemma testConnection_unresolved (connectionId startTime endTime : Z)
    (evs : list Event) (s : World * list Effect) (e : Error) :
  snd (getConnectionDetails connectionId s) = Err e ->
  testConnection client_end base64 connectionId startTime endTime evs s =
  (say (EConsole error
          ("SshService: 测试连接 " ++ string_of_Z connectionId ++ " 失败:")
          (Some e))
       (fst (getConnectionDetails connectionId s)),
   Returned (Err e)).
Proof.
  unfold testConnection.
  destruct (getConnectionDetails connectionId s) as [s1 [d|e1]]; simpl;
    intros Hr; inversion Hr; reflexivity.
Qed.

Lemma testUnsavedConnection_unresolved (connectionConfig : Config.t)
    (startTime endTime : Z) (evs : list Event) (s : World * list Effect)
    (e : Error) :
  snd (resolveInline connectionConfig s) = Err e ->
  testUnsavedConnection client_end base64 connectionConfig startTime endTime
    evs s =
  (say (EConsole error
          ("SshService: 测试未保存的连接到 " ++
           Config.host connectionConfig ++ ":" ++
           string_of_Z (Config.port connectionConfig) ++ " 失败:")
          (Some e))
       (fst (resolveInline connectionConfig s)),
   Returned (Err e)).
Proof.
  unfold testUnsavedConnection.
  destruct (resolveInline connectionConfig s) as [s1 [d|e1]]; simpl;
    intros Hr; inversion Hr; reflexivity.
Qed.



(** ** Unsupported proxy types *)

Lemma resolve_proxy_unsupported (connectionId : Z) (raw : RawConn.t)
    (proxy_db_id : Z) (proxyType : string) :
  truthyZ (RawConn.proxy_db_id raw) = Some proxy_db_id ->
  RawConn.proxy_type raw = Some proxyType ->
  unsupported_proxy_type proxyType = true ->
  forall d s,
  exists e,
    resolve_proxy connectionId raw d s = (s, Err e) /\
    (is_some (RawConn.proxy_name raw) && is_some (RawConn.proxy_host raw)
     && is_some (RawConn.proxy_port raw) = true ->
     e = mkError ("Proxy for Connection ID " ++ string_of_Z connectionId ++
                  " has invalid type: " ++ proxyType)).
Proof.
  intros Hid Ht Hu d s. unfold resolve_proxy.
  rewrite Hid, Ht. unfold_resolver. simpl.
  destruct (RawConn.proxy_name raw); simpl;
    [|eexists; split; [reflexivity|discriminate]].
  destruct (RawConn.proxy_host raw); simpl;
    [|eexists; split; [reflexivity|discriminate]].
  destruct (RawConn.proxy_port raw); simpl;
    [|eexists; split; [reflexivity|discriminate]].
  rewrite Hu. eexists; split; reflexivity.
Qed.

Lemma temp_proxy_unsupported (connectionConfig : Config.t)
    (proxy_id : Z) (rawProxyInfo : RawProxy.t) (proxyType : string) :
  truthyZ (Config.proxy_id connectionConfig) = Some proxy_id ->
  RawProxy.type rawProxyInfo = Some proxyType ->
  unsupported_proxy_type proxyType = true ->
  forall d s,
  snd (findProxyById proxy_id (fst s)) = Ok (Some rawProxyInfo) ->
  exists e,
    snd (temp_proxy connectionConfig d s) = Err e /\
    (is_some (RawProxy.name rawProxyInfo) &&
     is_some (RawProxy.host rawProxyInfo) &&
     is_some (RawProxy.port rawProxyInfo) = true ->
     message e =
       "处理代理凭证失败: " ++
       ("Proxy ID " ++ string_of_Z proxy_id ++ " has invalid type: " ++
        proxyType)).
Proof.
  intros Hid Ht Hu d s Hf. unfold temp_proxy.
  rewrite Hid. unfold_resolver. simpl.
  destruct (findProxyById proxy_id (fst s)) as [w1 r1].
  simpl in Hf. subst r1. simpl. rewrite Ht. simpl.
  destruct (RawProxy.name rawProxyInfo); simpl;
    [|eexists; split; [reflexivity|discriminate]].
  destruct (RawProxy.host rawProxyInfo); simpl;
    [|eexists; split; [reflexivity|discriminate]].
  destruct (RawProxy.port rawProxyInfo); simpl;
    [|eexists; split; [reflexivity|discriminate]].
  rewrite Hu. simpl. eexists; split; reflexivity.
Qed.

Lemma read_only_log_quiet (l : list Effect) (text : string)
    (arg : option Error) :
  Forall (fun x => is_read_only x = true) l ->
  Forall (fun x => is_network x = false)
         (l ++ [EConsole error text arg]) /\
  count_clients (l ++ [EConsole error text arg]) = O.
Proof.
  intros Hl. split.
  - apply Forall_app. split; [|repeat constructor].
    eapply Forall_impl; [|exact Hl].
    intros x. apply read_only_not_network.
  - unfold count_clients. rewrite count_app. simpl.
    rewrite (count_read_only is_new_client l); auto.
    intros x Hx; destruct x; simpl in *; congruence.
Qed.

(** C6.  A connection row whose proxy reference is present and whose
    proxy type is neither ['SOCKS5'] nor ['HTTP'] never resolves, and
    neither does an inline test configuration whose proxy row has such
    a type (the row the proxy repository returns after the credential
    step): the resolver fails, the tester returns that error, no SSH
    client is created and nothing reaches the network.  When the steps
    before the proxy check succeed and the proxy's name, host and port
    are present, the error is the invalid-type error naming the
    offending type. *)
Theorem unsupported_proxy_type_fails_before_network :
  forall (startTime endTime : Z) (evs : list Event) (proxyType : string),
    unsupported_proxy_type proxyType = true ->
    (forall connectionId w w1 rawConnInfo proxy_db_id,
       findFullConnectionById connectionId w = (w1, Ok (Some rawConnInfo)) ->
       truthyZ (RawConn.proxy_db_id rawConnInfo) = Some proxy_db_id ->
       RawConn.proxy_type rawConnInfo = Some proxyType ->
       let out :=
         testConnection client_end base64 connectionId startTime endTime
           evs (w, []) in
       exists e,
         snd (getConnectionDetails connectionId (w, [])) = Err e /\
         snd out = Returned (Err e) /\
         Forall (fun x => is_network x = false) (snd (fst out)) /\
         count_clients (snd (fst out)) = O /\
         (forall s d,
            credentials_stage connectionId rawConnInfo
              (w1, [EFindFullConnectionById connectionId]) = (s, Ok d) ->
            is_some (RawConn.proxy_name rawConnInfo) &&
            is_some (RawConn.proxy_host rawConnInfo) &&
            is_some (RawConn.proxy_port rawConnInfo) = true ->
            message e =
              "处理凭证失败: " ++
              ("Proxy for Connection ID " ++ string_of_Z connectionId ++
               " has invalid type: " ++ proxyType)))
    /\ (forall connectionConfig w proxy_id rawProxyInfo,
          truthyZ (Config.proxy_id connectionConfig) = Some proxy_id ->
          snd (findProxyById proxy_id
                 (fst (fst (temp_credentials connectionConfig (w, [])))))
            = Ok (Some rawProxyInfo) ->
          RawProxy.type rawProxyInfo = Some proxyType ->
          let out :=
            testUnsavedConnection client_end base64 connectionConfig
              startTime endTime evs (w, []) in
          exists e,
            snd (resolveInline connectionConfig (w, [])) = Err e /\
            snd out = Returned (Err e) /\
            Forall (fun x => is_network x = false) (snd (fst out)) /\
            count_clients (snd (fst out)) = O /\
            (forall s d,
               temp_credentials connectionConfig (w, []) = (s, Ok d) ->
               is_some (RawProxy.name rawProxyInfo) &&
               is_some (RawProxy.host rawProxyInfo) &&
               is_some (RawProxy.port rawProxyInfo) = true ->
               message e =
                 "处理代理凭证失败: " ++
                 ("Proxy ID " ++ string_of_Z proxy_id ++
                  " has invalid type: " ++ proxyType))).
Proof.
  intros startTime endTime evs proxyType Hu. split.
  - intros connectionId w w1 raw pid Hf Hid Ht. cbv zeta.
    assert (Hres : exists e,
      snd (getConnectionDetails connectionId (w, [])) = Err e /\
      (forall s d,
         credentials_stage connectionId raw
           (w1, [EFindFullConnectionById connectionId]) = (s, Ok d) ->
         is_some (RawConn.proxy_name raw) &&
         is_some (RawConn.proxy_host raw) &&
         is_some (RawConn.proxy_port raw) = true ->
         message e =
           "处理凭证失败: " ++
           ("Proxy for Connection ID " ++ string_of_Z connectionId ++
            " has invalid type: " ++ proxyType))).
    { unfold getConnectionDetails, credentials_stage.
      unfold bind at 1. unfold await_call at 1. simpl. rewrite Hf.
      unfold try_catch. unfold bind at 1. unfold bind at 3.
      destruct (initial_details connectionId raw
                  (w1, [EFindFullConnectionById connectionId]))
        as [s1 [d1|e1]].
      - unfold bind at 1.
        destruct (resolve_credentials connectionId raw d1 s1)
          as [s2 [d2|e2]].
        + destruct (resolve_proxy_unsupported connectionId raw pid
                      proxyType Hid Ht Hu d2 s2) as (e & He & Hmsg).
          rewrite He. unfold_resolver. simpl.
          eexists. split; [reflexivity|].
          intros s d Hsd Hp. rewrite (Hmsg Hp). reflexivity.
        + unfold_resolver. simpl. eexists. split; [reflexivity|].
          intros s d Hsd. discriminate.
      - unfold_resolver. simpl. eexists. split; [reflexivity|].
        intros s d Hsd. discriminate. }
    destruct Hres as (e & He & Hmsg). exists e.
    split; [exact He|].
    rewrite (testConnection_unresolved _ _ _ _ _ _ He).
    split; [reflexivity|].
    pose proof (getConnectionDetails_read_only connectionId w) as Hro.
    unfold say. simpl fst. simpl snd.
    destruct (read_only_log_quiet _
                ("SshService: 测试连接 " ++ string_of_Z connectionId ++
                 " 失败:") (Some e) Hro) as [Hq1 Hq2].
    split; [exact Hq1|]. split; [exact Hq2|exact Hmsg].
  - intros cfg w pid rp Hid Hfind Ht. cbv zeta.
    assert (Hres : exists e,
      snd (resolveInline cfg (w, [])) = Err e /\
      (forall s d,
         temp_credentials cfg (w, []) = (s, Ok d) ->
         is_some (RawProxy.name rp) && is_some (RawProxy.host rp) &&
         is_some (RawProxy.port rp) = true ->
         message e =
           "处理代理凭证失败: " ++
           ("Proxy ID " ++ string_of_Z pid ++ " has invalid type: " ++
            proxyType))).
    { unfold resolveInline. unfold bind at 1.
      destruct (temp_credentials cfg (w, [])) as [s1 [d1|e1]].
      all: simpl in Hfind.
      - destruct (temp_proxy_unsupported cfg pid rp proxyType Hid
                    Ht Hu d1 s1 Hfind) as (e & He & Hmsg).
        exists e. split; [exact He|].
        intros s d Hsd Hp. exact (Hmsg Hp).
      - eexists. split; [reflexivity|]. intros s d Hsd. discriminate. }
    destruct Hres as (e & He & Hmsg). exists e.
    split; [exact He|].
    rewrite (testUnsavedConnection_unresolved _ _ _ _ _ _ He).
    split; [reflexivity|].
    pose proof (resolveInline_read_only cfg w) as Hro.
    unfold say. simpl fst. simpl snd.
    destruct (read_only_log_quiet _
                ("SshService: 测试未保存的连接到 " ++ Config.host cfg ++
                 ":" ++ string_of_Z (Config.port cfg) ++ " 失败:")
                (Some e) Hro) as [Hq1 Hq2].
    split; [exact Hq1|]. split; [exact Hq2|exact Hmsg].
Qed.

(** ** The sentinel identifier of unsaved tests *)

Lemma resolveInline_id (connectionConfig : Config.t)
    (s : World * list Effect) (d : Details.t) :
  snd (resolveInline connectionConfig s) = Ok d -> Details.id d = -1.
Proof.
  destruct connectionConfig as [h p u [|] pw pk pp kid pid];
    unfold_resolver; simpl;
    break_all; intros Hd; inversion Hd; reflexivity.
Qed.

(** C10.  Every call of [testUnsavedConnection] that returns a latency
    has resolved a credential set with the sentinel identifier [-1],
    and its ready handler has called the repository's last-connected
    update with that identifier. *)
Theorem unsaved_test_updates_sentinel_timestamp :
  forall (connectionConfig : Config.t) (startTime endTime : Z)
         (evs : list Event) (s s' : World * list Effect) (latency : Z),
    testUnsavedConnection client_end base64 connectionConfig startTime
      endTime evs s = (s', Returned (Ok latency)) ->
    exists d seconds,
      snd (resolveInline connectionConfig s) = Ok d /\
      Details.id d = -1 /\
      In (EUpdateLastConnected (-1) seconds) (snd s').
Proof.
  intros cfg startTime endTime evs s s' latency.
  unfold testUnsavedConnection.
  pose proof (resolveInline_id cfg s) as Hid.
  destruct (resolveInline cfg s) as [s1 [d|e]]; simpl in *;
    [|intros Hr; discriminate].
  intros Hr.
  pose proof (probe_returns
                ("SshService: 测试未保存的连接到 " ++ Config.host cfg ++
                 ":" ++ string_of_Z (Config.port cfg) ++ " 失败:")
                d startTime endTime evs s1 (Ok latency)) as Hp.
  cbv zeta in Hp. rewrite Hr in Hp. simpl in Hp.
  destruct (Hp eq_refl) as (_ & _ & Hlat).
  destruct (Hlat latency eq_refl) as (_ & _ & seconds & Hin).
  exists d, seconds. rewrite (Hid d eq_refl) in Hin. auto.
Qed.

End TesterFacts.

(* ===================================================================== *)
(** * 10. The properties on the sample store and sample attempts *)
(* ===================================================================== *)

Module OnSamples.
Import Sample SampleAttempt.

Abbreviation ok := (Ok tt : result unit).
Abbreviation lookup := (getConnectionDetails (backend := backend)).
Abbreviation by_id := (testConnection (backend := backend) ok base64).
Abbreviation unsaved_test :=
  (testUnsavedConnection (backend := backend) ok base64).
Abbreviation attempt_of d := (establishSshConnection ok base64 d CONNECT_TIMEOUT).
Abbreviation ready_then_updated :=
  [SshReady 1700000000123; UpdateSettled (Ok tt)].



Lemma stored_key_takes_precedence_witness :
  exists d,
    snd (lookup 2 (store, [])) = Ok d /\
    Details.privateKey d = Some "PK7" /\
    Details.passphrase d = Some "pp7" /\
    forall f ct,
      In (EDecrypt f ct) (snd (fst (lookup 2 (store, [])))) ->
      f = f_proxy_encrypted_password.
Proof.
  destruct (stored_key_takes_precedence (backend := backend) 2 store store
              (conn 2 key_auth None (Some 7) (Some "enc:INLINE")
                 (Some "enc:pp") None)
              7 "enc:INLINE" eq_refl eq_refl eq_refl eq_refl)
    as (Hdec & Hok & _ & Hres).
  destruct (Hres store (StoredKey.mk "PK7" (Some "pp7")) eq_refl eq_refl
              eq_refl) as [d Hd].
  exists d. split; [rewrite Hd; reflexivity|].
  destruct (Hok d) as (w2 & k & Hk & Hpk & Hpp & _);
    [rewrite Hd; reflexivity|].
  injection Hk as _ <-.
  split; [exact Hpk|]. split; [exact Hpp|exact Hdec].
Defined.

Lemma http_tunnel_requires_status_200_witness :
  exists err,
    promise (step ok (attempt_of via_http) (HttpConnect 407 9%nat)) =
      Some (Rejected err) /\
    exists pre post, message err = pre ++ "407" ++ post.
Proof.
  destruct (http_tunnel_requires_status_200 ok base64 via_http
              CONNECT_TIMEOUT
              (Proxy.mk 1 "px" "HTTP" "10.0.0.1" 3128 (Some "u")
                 (Some "pw"))
              eq_refl eq_refl) as (_ & _ & _ & Hfail & _).
  destruct (Hfail 407 9%nat ltac:(discriminate))
    as (err & after & Hp & Hmsg & _).
  exists err. split; [exact Hp|exact Hmsg].
Defined.




Lemma unsupported_proxy_type_fails_before_network_witness :
  unsupported_proxy_type "SOCKS4" = true /\
  (exists e,
     snd (by_id 5 0 5 ready_then_updated (store, [])) = Returned (Err e)) /\
  (exists e,
     snd (unsaved_test (unsaved password_auth None (Some 2)) 0 5
            ready_then_updated (store, [])) = Returned (Err e)).
Proof.
  split; [reflexivity|].
  pose proof (unsupported_proxy_type_fails_before_network
                (backend := backend) ok base64 0 5 ready_then_updated
                "SOCKS4" eq_refl) as [Hid Hinline].
  split.
  - destruct (Hid 5 store store
                (conn 5 password_auth (Some "enc:secret") None None None
                   (Some (2, "SOCKS4")))
                2 eq_refl eq_refl eq_refl) as (e & _ & He & _).
    exists e. exact He.
  - destruct (Hinline (unsaved password_auth None (Some 2)) store 2
                (RawProxy.mk 2 (Some "old") (Some "SOCKS4")
                   (Some "10.0.0.2") (Some 1080) None None)
                eq_refl eq_refl eq_refl) as (e & _ & He & _).
    exists e. exact He.
Defined.

Lemma key_auth_without_key_resolves_empty_witness :
  exists d,
    snd (lookup 4 (store, [])) = Ok d /\
    Details.privateKey d = None /\ Details.passphrase d = None.
Proof.
  destruct (key_auth_without_key_resolves_empty (backend := backend) 4
              store store (conn 4 key_auth None None None None None)
              eq_refl eq_refl eq_refl eq_refl) as (_ & Hempty & Hok).
  destruct (Hok eq_refl eq_refl) as (d & Hd & _).
  exists d. split; [exact Hd|].
  destruct (Hempty d Hd) as (Hpk & Hpp & _). split; assumption.
Defined.

Lemma resolved_secrets_exclusive_witness :
  secrets_exclusive
    (Details.mk 1 "srv" "10.0.0.5" 22 "root" password_auth (Some "secret")
       None None None) /\
  secrets_exclusive
    (Details.mk (-1) "Test-10.0.0.5" "10.0.0.5" 22 "root" key_auth None
       (Some "KEY") None None).
Proof.
  destruct (resolved_secrets_exclusive (backend := backend) (store, []))
    as [Hid Hinline].
  split.
  - apply (Hid 1). reflexivity.
  - apply (Hinline (unsaved key_auth None None)). reflexivity.
Defined.

Lemma resolution_is_repeatable_witness :
  read_only_backend (backend := backend) /\
  snd (lookup 6 (fst (lookup 6 (store, [])))) = snd (lookup 6 (store, [])).
Proof.
  assert (Hro : read_only_backend (backend := backend)).
  { repeat split; intros id w; reflexivity. }
  split; [exact Hro|].
  apply (resolution_is_repeatable (backend := backend) Hro 6 store).
Defined.

Lemma unsaved_test_updates_sentinel_timestamp_witness :
  exists s' seconds,
    unsaved_test (unsaved key_auth (Some 7) None) 0 5 ready_then_updated
      (store, []) = (s', Returned (Ok 5)) /\
    In (EUpdateLastConnected (-1) seconds) (snd s').
Proof.
  assert (E : exists s',
    unsaved_test (unsaved key_auth (Some 7) None) 0 5 ready_then_updated
      (store, []) = (s', Returned (Ok 5))).
  { vm_compute. eexists. reflexivity. }
  destruct E as [s' E].
  destruct (unsaved_test_updates_sentinel_timestamp (backend := backend)
              ok base64 (unsaved key_auth (Some 7) None) 0 5
              ready_then_updated (store, []) s' 5 E)
    as (d & seconds & _ & _ & Hin).
  exists s', seconds. split; assumption.
Defined.

End OnSamples.

(* ===================================================================== *)
(** * 11. Further properties of the credential resolver *)
(* ===================================================================== *)

Lemma substring_all (s : string) :
  String.substring 0 (String.length s) s = s.
Proof.
  induction s as [|c s IH]; simpl; [reflexivity|].
  rewrite IH. reflexivity.
Qed.

Lemma length_append (p s : string) :
  String.length (p ++ s) = (String.length p + String.length s)%nat.
Proof.
  induction p as [|c p IH]; [reflexivity|].
  change (S (String.length (p ++ s)) =
          S (String.length p + String.length s)).
  rewrite IH. reflexivity.
Qed.

(** Removing a prefix that was put in front gives the original back. *)
Lemma drop_prefix_app (p s : string) : drop_prefix p (p ++ s) = s.
Proof.
  unfold drop_prefix. rewrite length_append.
  replace (String.length p + String.length s - String.length p)%nat
    with (String.length s) by lia.
  induction p as [|c p IH]; [apply substring_all|].
  change (String.substring (String.length p) (String.length s) (p ++ s) = s).
  exact IH.
Qed.

Lemma supported_type (t : string) :
  unsupported_proxy_type t = false -> t = "SOCKS5" \/ t = "HTTP".
Proof.
  unfold unsupported_proxy_type. intros H.
  destruct (String.eqb t "SOCKS5") eqn:E1;
    [apply String.eqb_eq in E1; auto|].
  destruct (String.eqb t "HTTP") eqn:E2;
    [apply String.eqb_eq in E2; auto|discriminate].
Qed.

Section MoreResolverFacts.
Context {World : Type} {backend : Backend World}.

(** X1.  When [getConnectionDetails] succeeds, the identifier, name,
    host, port, user name and authentication mode of the result are
    those of the stored row, all present.  When a mandatory field of
    the row is null the call fails right after the lookup: the only
    other effect is the error log, no secret is decrypted and the key
    vault is not consulted. *)
Theorem resolved_identity_comes_from_the_row :
  forall (connectionId : Z) (w w1 : World) (rawConnInfo : RawConn.t),
    findFullConnectionById connectionId w = (w1, Ok (Some rawConnInfo)) ->
    let out := getConnectionDetails connectionId (w, []) in
    (forall d, snd out = Ok d ->
       Details.id d = RawConn.id rawConnInfo /\
       RawConn.name rawConnInfo = Some (Details.name d) /\
       RawConn.host rawConnInfo = Some (Details.host d) /\
       RawConn.port rawConnInfo = Some (Details.port d) /\
       RawConn.username rawConnInfo = Some (Details.username d) /\
       RawConn.auth_method rawConnInfo = Some (Details.auth_method d))
    /\ (mandatory_present rawConnInfo = false ->
        exists inner,
          out =
            ((w1, [EFindFullConnectionById connectionId;
                   EConsole error
                     ("SshService: 处理连接 " ++ string_of_Z connectionId ++
                      " 凭证或代理凭证失败:") (Some inner)]),
             Err (mkError ("处理凭证失败: " ++ message inner)))).
Proof.
  intros connectionId w w1 raw Hf out. subst out.
  unfold mandatory_present, is_some. unfold_resolver. simpl.
  rewrite Hf. simpl. split.
  - intros d. break_all; intros Hd; inversion Hd; subst; simpl;
      repeat split; reflexivity.
  - destruct (RawConn.name raw); simpl;
      [|intros _; eexists (mkError _); reflexivity].
    destruct (RawConn.host raw); simpl;
      [|intros _; eexists (mkError _); reflexivity].
    destruct (RawConn.port raw); simpl;
      [|intros _; eexists (mkError _); reflexivity].
    destruct (RawConn.username raw); simpl;
      [|intros _; eexists (mkError _); reflexivity].
    destruct (RawConn.auth_method raw); simpl;
      [intros Hm; discriminate|intros _; eexists (mkError _); reflexivity].
Qed.

(** X2.  A failure of [getConnectionDetails] tells where it arose.  If
    the lookup itself rejects, that error is passed on unchanged; if no
    row is stored, the error is the not-found error; in both cases
    nothing but the lookup was performed.  Every failure after the row
    was found is logged and rethrown as a new error whose message is the
    fixed prefix followed by the message of the cause. *)
Theorem resolution_failures_are_wrapped_after_the_lookup :
  forall (connectionId : Z) (w : World) (e : Error),
    let out := getConnectionDetails connectionId (w, []) in
    snd out = Err e ->
    match findFullConnectionById connectionId w with
    | (w1, Err rejected) =>
        e = rejected /\
        fst out = (w1, [EFindFullConnectionById connectionId])
    | (w1, Ok None) =>
        e = mkError ("连接配置 ID " ++ string_of_Z connectionId ++ " 未找到。")
        /\ fst out = (w1, [EFindFullConnectionById connectionId])
    | (_, Ok (Some _)) =>
        exists inner before,
          message e = "处理凭证失败: " ++ message inner /\
          drop_prefix "处理凭证失败: " (message e) = message inner /\
          snd (fst out) =
            (before ++
             [EConsole error
                ("SshService: 处理连接 " ++ string_of_Z connectionId ++
                 " 凭证或代理凭证失败:") (Some inner)])%list
    end.
Proof.
  intros connectionId w e out. subst out.
  unfold_resolver. simpl.
  destruct (findFullConnectionById connectionId w) as [w1 [[raw|]|e0]];
    simpl.
  - break_all; intros He; inversion He; subst; simpl;
      match goal with
      | |- exists inner before, _ /\ _ /\ ?l = _ =>
          match l with
          | context [EConsole error _ (Some ?c)] =>
              exists c, (removelast l)
          end
      end;
      (split; [reflexivity|]);
      (split; [apply drop_prefix_app|reflexivity]).
  - intros He; inversion He; auto.
  - intros He; inversion He; auto.
Qed.

Ltac in_log Hin :=
  simpl in Hin;
  repeat (destruct Hin as [Hin|Hin]; try discriminate; try contradiction).

(** X3.  For a row with password authentication the key vault is never
    consulted and no key or passphrase is decrypted, whatever key fields
    the row carries.  A successful resolution returns the decrypted
    stored password, or no password when none is stored (null or empty);
    a password that fails to decrypt makes the resolution fail with the
    wrapped decryption error. *)
Theorem password_mode_resolution :
  forall (connectionId : Z) (w w1 : World) (rawConnInfo : RawConn.t),
    findFullConnectionById connectionId w = (w1, Ok (Some rawConnInfo)) ->
    RawConn.auth_method rawConnInfo = Some password_auth ->
    let out := getConnectionDetails connectionId (w, []) in
    count is_vault_lookup (snd (fst out)) = O
    /\ (forall f ct, In (EDecrypt f ct) (snd (fst out)) ->
          f = f_encrypted_password \/ f = f_proxy_encrypted_password)
    /\ (forall d, snd out = Ok d ->
          match truthyS (RawConn.encrypted_password rawConnInfo) with
          | Some ct =>
              exists plain,
                decrypt ct = Ok plain /\ Details.password d = Some plain
          | None => Details.password d = None
          end)
    /\ (forall ct cause,
          truthyS (RawConn.encrypted_password rawConnInfo) = Some ct ->
          decrypt ct = Err cause ->
          mandatory_present rawConnInfo = true ->
          snd out = Err (mkError ("处理凭证失败: " ++ message cause))).
Proof.
  intros connectionId w w1 raw Hf Ha out. subst out.
  unfold mandatory_present, is_some. unfold_resolver. simpl.
  rewrite Hf, Ha. simpl.
  split; [|split; [|split]].
  - break_all; reflexivity.
  - intros f ct. break_all; intros Hin; in_log Hin;
      inversion Hin; auto.
  - intros d. break_all; intros Hd; inversion Hd; subst; simpl; eauto.
  - intros ct cause Hct Hdec. rewrite Hct.
    destruct (RawConn.name raw); simpl; [|discriminate].
    destruct (RawConn.host raw); simpl; [|discriminate].
    destruct (RawConn.port raw); simpl; [|discriminate].
    destruct (RawConn.username raw); simpl; [|discriminate].
    rewrite Hdec. reflexivity.
Qed.

(** X4.  For a row with key authentication, no stored-key reference
    (null or 0) and an inline encrypted key, the key vault is not
    consulted: a successful resolution returns the decrypted inline key
    and the decrypted passphrase when one is stored, no passphrase
    otherwise, and no password.  When the key fails to decrypt the
    passphrase is not decrypted any more. *)
Theorem inline_key_resolution :
  forall (connectionId : Z) (w w1 : World) (rawConnInfo : RawConn.t)
         (encrypted_private_key : string),
    findFullConnectionById connectionId w = (w1, Ok (Some rawConnInfo)) ->
    RawConn.auth_method rawConnInfo = Some key_auth ->
    truthyZ (RawConn.ssh_key_id rawConnInfo) = None ->
    truthyS (RawConn.encrypted_private_key rawConnInfo) =
      Some encrypted_private_key ->
    let out := getConnectionDetails connectionId (w, []) in
    count is_vault_lookup (snd (fst out)) = O
    /\ (forall d, snd out = Ok d ->
          (exists key,
             decrypt encrypted_private_key = Ok key /\
             Details.privateKey d = Some key) /\
          match truthyS (RawConn.encrypted_passphrase rawConnInfo) with
          | Some ct =>
              exists plain,
                decrypt ct = Ok plain /\ Details.passphrase d = Some plain
          | None => Details.passphrase d = None
          end /\
          Details.password d = None)
    /\ (forall cause,
          decrypt encrypted_private_key = Err cause ->
          (forall ct,
             ~ In (EDecrypt f_encrypted_passphrase ct) (snd (fst out))) /\
          exists e, snd out = Err e /\
            (mandatory_present rawConnInfo = true ->
             e = mkError ("处理凭证失败: " ++ message cause))).
Proof.
  intros connectionId w w1 raw ek Hf Ha Hk Hi out. subst out.
  unfold mandatory_present, is_some. unfold_resolver. simpl.
  rewrite Hf, Ha, Hk, Hi. simpl.
  split; [|split].
  - break_all; reflexivity.
  - intros d. break_all; intros Hd; inversion Hd; subst; simpl;
      repeat split; eauto.
  - intros cause Hdec. split.
    + intros ct. break_all; intros Hin; in_log Hin.
    + destruct (RawConn.name raw); simpl;
        [|eexists; split; [reflexivity|discriminate]].
      destruct (RawConn.host raw); simpl;
        [|eexists; split; [reflexivity|discriminate]].
      destruct (RawConn.port raw); simpl;
        [|eexists; split; [reflexivity|discriminate]].
      destruct (RawConn.username raw); simpl;
        [|eexists; split; [reflexivity|discriminate]].
      rewrite Hdec. simpl. eexists; split; reflexivity.
Qed.

Lemma getConnectionDetails_proxy_supported (connectionId : Z)
    (s : World * list Effect) (d : Details.t) :
  snd (getConnectionDetails connectionId s) = Ok d -> proxy_supported d.
Proof.
  unfold_resolver.
  break_all; intros Hd; inversion Hd; subst;
    unfold proxy_supported; simpl; auto;
    apply supported_type; assumption.
Qed.

Lemma resolveInline_proxy_supported (connectionConfig : Config.t)
    (s : World * list Effect) (d : Details.t) :
  snd (resolveInline connectionConfig s) = Ok d -> proxy_supported d.
Proof.
  destruct connectionConfig as [h p u [|] pw pk pp kid pid];
    unfold_resolver; simpl;
    break_all; intros Hd; inversion Hd; subst;
    unfold proxy_supported; simpl; auto;
    apply supported_type; assumption.
Qed.


(** X6.  The proxy of a set resolved by identifier comes from the proxy
    columns of the joined row: none when the row has no proxy reference
    (null or 0); otherwise its identifier is the reference, its name,
    type, host and port are the stored ones, an empty or null user name
    becomes undefined, and the password is the decrypted stored one, or
    undefined when none is stored. *)
Theorem resolved_proxy_comes_from_the_row :
  forall (connectionId : Z) (w w1 : World) (rawConnInfo : RawConn.t)
         (d : Details.t),
    findFullConnectionById connectionId w = (w1, Ok (Some rawConnInfo)) ->
    snd (getConnectionDetails connectionId (w, [])) = Ok d ->
    match truthyZ (RawConn.proxy_db_id rawConnInfo) with
    | None =>
        Details.proxy d = None /\
        forall ct,
          ~ In (EDecrypt f_proxy_encrypted_password ct)
               (snd (fst (getConnectionDetails connectionId (w, []))))
    | Some proxy_db_id =>
        exists proxy,
          Details.proxy d = Some proxy /\
          Proxy.id proxy = proxy_db_id /\
          RawConn.proxy_name rawConnInfo = Some (Proxy.name proxy) /\
          RawConn.proxy_type rawConnInfo = Some (Proxy.type proxy) /\
          RawConn.proxy_host rawConnInfo = Some (Proxy.host proxy) /\
          RawConn.proxy_port rawConnInfo = Some (Proxy.port proxy) /\
          Proxy.username proxy =
            truthyS (RawConn.proxy_username rawConnInfo) /\
          match truthyS (RawConn.proxy_encrypted_password rawConnInfo) with
          | Some ct =>
              exists plain,
                decrypt ct = Ok plain /\
                Proxy.password proxy = Some plain
          | None => Proxy.password proxy = None
          end
    end.
Proof.
  intros connectionId w w1 raw d Hf. unfold_resolver. simpl.
  rewrite Hf. simpl.
  break_all; intros Hd; inversion Hd; subst; simpl;
    try (split; [reflexivity|intros ct Hin; in_log Hin]);
    try (eexists; repeat split; eauto).
Qed.

(** X7.  The inline resolution of [testUnsavedConnection] takes the
    secrets as the caller gave them: it never decrypts a password, key
    or passphrase (only, possibly, the stored proxy password).  The
    result has the sentinel identifier, the name ["Test-" ++ host] and
    the caller's host, port, user name and mode; in password mode the
    caller's password; in key mode the caller's key and passphrase,
    unless a stored-key reference is given, which takes precedence over
    a key supplied inline.  A dangling stored-key reference fails with
    the unwrapped key-not-found error before any proxy lookup. *)
Theorem inline_resolution_passes_plaintext_through :
  forall (connectionConfig : Config.t) (w : World),
    let out := resolveInline connectionConfig (w, []) in
    (forall f ct, In (EDecrypt f ct) (snd (fst out)) ->
                  f = f_proxy_encrypted_password)
    /\ (forall d, snd out = Ok d ->
          Details.id d = -1 /\
          Details.name d = "Test-" ++ Config.host connectionConfig /\
          Details.host d = Config.host connectionConfig /\
          Details.port d = Config.port connectionConfig /\
          Details.username d = Config.username connectionConfig /\
          Details.auth_method d = Config.auth_method connectionConfig /\
          match Config.auth_method connectionConfig with
          | password_auth =>
              Details.password d = Config.password connectionConfig /\
              count is_vault_lookup (snd (fst out)) = O
          | key_auth =>
              match truthyZ (Config.ssh_key_id connectionConfig) with
              | None =>
                  Details.privateKey d =
                    Config.private_key connectionConfig /\
                  Details.passphrase d =
                    Config.passphrase connectionConfig /\
                  count is_vault_lookup (snd (fst out)) = O
              | Some ssh_key_id =>
                  exists w1 k,
                    getDecryptedSshKeyById ssh_key_id w = (w1, Ok (Some k))
                    /\ Details.privateKey d = Some (StoredKey.privateKey k)
                    /\ Details.passphrase d = StoredKey.passphrase k
              end
          end /\
          (truthyZ (Config.proxy_id connectionConfig) = None ->
           Details.proxy d = None /\
           count is_proxy_lookup (snd (fst out)) = O))
    /\ (forall ssh_key_id w1,
          Config.auth_method connectionConfig = key_auth ->
          truthyZ (Config.ssh_key_id connectionConfig) = Some ssh_key_id ->
          getDecryptedSshKeyById ssh_key_id w = (w1, Ok None) ->
          out =
            ((w1, [EGetDecryptedSshKeyById ssh_key_id]),
             Err (mkError ("选择的 SSH 密钥 (ID: " ++
                           string_of_Z ssh_key_id ++ ") 未找到。")))).
Proof.
  intros cfg w out. subst out.
  destruct cfg as [h p u a pw pk pp kid pid].
  split; [|split].
  - intros f ct. destruct a; unfold_resolver; simpl;
      break_all; intros Hin; in_log Hin; inversion Hin; reflexivity.
  - intros d. destruct a; unfold_resolver; simpl;
      break_all; intros Hd; inversion Hd; subst; simpl;
      repeat split; try reflexivity; try discriminate; eauto.
  - intros key_id w1 Ha Hk Hv. simpl in Ha, Hk. subst a.
    unfold_resolver. simpl. rewrite Hk. simpl. rewrite Hv. reflexivity.
Qed.

Lemma temp_credentials_log (connectionConfig : Config.t) (w : World) :
  Forall (fun e => is_vault_lookup e = true)
         (snd (fst (temp_credentials connectionConfig (w, [])))).
Proof.
  destruct connectionConfig as [h p u [|] pw pk pp kid pid];
    unfold_resolver; simpl; break_all; repeat constructor.
Qed.

(** X8.  An inline configuration whose proxy reference points to no
    stored proxy fails after the credential step with the unwrapped
    proxy-not-found error; [testUnsavedConnection] returns that error
    without creating a client, without any network operation and
    without any decryption. *)
Theorem inline_missing_proxy_fails_before_network :
  forall (client_end : result unit) (base64 : string -> string)
         (startTime endTime : Z) (evs : list Event)
         (connectionConfig : Config.t) (w : World) (proxy_id : Z)
         (s1 : World * list Effect) (d1 : Details.t),
    truthyZ (Config.proxy_id connectionConfig) = Some proxy_id ->
    temp_credentials connectionConfig (w, []) = (s1, Ok d1) ->
    snd (findProxyById proxy_id (fst s1)) = Ok None ->
    let e := mkError ("代理 ID " ++ string_of_Z proxy_id ++ " 未找到。") in
    let out :=
      testUnsavedConnection client_end base64 connectionConfig startTime
        endTime evs (w, []) in
    snd (resolveInline connectionConfig (w, [])) = Err e /\
    snd out = Returned (Err e) /\
    Forall (fun x => is_network x = false) (snd (fst out)) /\
    count_clients (snd (fst out)) = O /\
    count is_decrypt (snd (fst out)) = O.
Proof.
  intros client_end base64 startTime endTime evs cfg w pid s1 d1
         Hid Htemp Hfind e out.
  assert (Hres : resolveInline cfg (w, []) =
                 ((fst (findProxyById pid (fst s1)),
                   (snd s1 ++ [EFindProxyById pid])%list), Err e)).
  { unfold resolveInline. unfold bind at 1. rewrite Htemp.
    unfold temp_proxy. rewrite Hid. unfold_resolver.
    destruct (findProxyById pid (fst s1)) as [w2 r2].
    simpl in Hfind. subst r2. reflexivity. }
  assert (He : snd (resolveInline cfg (w, [])) = Err e)
    by (rewrite Hres; reflexivity).
  split; [exact He|]. subst out.
  rewrite (testUnsavedConnection_unresolved _ _ _ _ _ _ _ _ He).
  split; [reflexivity|].
  pose proof (resolveInline_read_only cfg w) as Hro.
  unfold say. simpl fst. simpl snd.
  destruct (read_only_log_quiet (snd (fst (resolveInline cfg (w, []))))
              ("SshService: 测试未保存的连接到 " ++ Config.host cfg ++
               ":" ++ string_of_Z (Config.port cfg) ++ " 失败:")
              (Some e) Hro) as [Hq1 Hq2].
  split; [exact Hq1|]. split; [exact Hq2|].
  rewrite Hres. simpl.
  pose proof (temp_credentials_log cfg w) as Hlog.
  rewrite Htemp in Hlog. simpl in Hlog.
  rewrite !count_app. simpl.
  assert (Hc : count is_decrypt (snd s1) = O).
  { clear -Hlog. induction Hlog as [|x l Hx _ IH]; simpl; auto.
    destruct x; simpl in *; try discriminate; exact IH. }
  rewrite Hc. reflexivity.
Qed.

End MoreResolverFacts.

(* ===================================================================== *)
(** * 12. Further properties of the session establisher *)
(* ===================================================================== *)

(** Case analysis on one step of an attempt whose listeners are among
    those registered at the start, then evaluation. *)
Ltac cases_of_step a H ev :=
  let d := fresh "d" in
  let cfg := fresh "cfg" in
  let rl := fresh "rl" in
  let el := fresh "el" in
  let cl := fresh "cl" in
  let p := fresh "p" in
  let n := fresh "n" in
  let cb := fresh "cb" in
  let tr := fresh "tr" in
  let Hr := fresh "Hr" in
  let He := fresh "He" in
  let Hc := fresh "Hc" in
  destruct a as [d cfg [rl el cl] p n cb tr];
  destruct H as ([Hr|Hr] & [He|He] & [Hc|Hc]);
  simpl in Hr, He, Hc; subst rl el cl;
  (destruct ev;
   [ | | | destruct n
     | destruct cb | destruct cb | destruct cb | destruct cb
     | destruct cb ]);
  eval_attempt;
  try match goal with
      | |- context [?x =? 200] => destruct (x =? 200) eqn:?
      end.

Ltac fields_of a :=
  let d := fresh "d" in
  let cfg := fresh "cfg" in
  let rl := fresh "rl" in
  let el := fresh "el" in
  let cl := fresh "cl" in
  let p := fresh "p" in
  let n := fresh "n" in
  let cb := fresh "cb" in
  let tr := fresh "tr" in
  destruct a as [d cfg [rl el cl] p n cb tr].

Ltac start_cases d :=
  unfold establishSshConnection;
  let proxy := fresh "proxy" in
  destruct (Details.proxy d) as [proxy|] eqn:?;
  [ destruct (String.eqb (Proxy.type proxy) "SOCKS5") eqn:?;
    [ | destruct (String.eqb (Proxy.type proxy) "HTTP") eqn:? ] | ];
  eval_attempt.

Ltac count_effects :=
  unfold count_clients, count_ends in *;
  rewrite ?count_app; simpl;
  repeat match goal with
         | |- context [match ?x with _ => _ end] => is_var x; destruct x
         end; simpl; try lia.

Ltac split_in Hin :=
  rewrite ?in_app_iff in Hin;
  repeat match type of Hin with
         | context [match ?x with _ => _ end] => destruct x
         end;
  simpl in Hin;
  repeat match goal with
         | H : _ \/ _ |- _ => destruct H
         end;
  try discriminate; try contradiction.

Section MoreEstablisherFacts.
Variable client_end : result unit.
Variable base64 : string -> string.

Abbreviation step := (step client_end).
Abbreviation run := (run client_end).
Abbreviation establish := (establishSshConnection client_end base64).



(** ** Connection settings *)

Lemma same_settings_set_sock (c : ConnectConfig.t) (socket : Socket) :
  same_settings (ConnectConfig.set_sock c socket) c.
Proof. destruct c. intros s. reflexivity. Qed.

Lemma same_settings_trans (c1 c2 c3 : ConnectConfig.t) :
  same_settings c1 c2 -> same_settings c2 c3 -> same_settings c1 c3.
Proof. intros H12 H23 s. rewrite H12. apply H23. Qed.

Lemma same_settings_fields (c c' : ConnectConfig.t) :
  same_settings c c' ->
  ConnectConfig.host c = ConnectConfig.host c' /\
  ConnectConfig.port c = ConnectConfig.port c' /\
  ConnectConfig.username c = ConnectConfig.username c' /\
  ConnectConfig.password c = ConnectConfig.password c' /\
  ConnectConfig.privateKey c = ConnectConfig.privateKey c' /\
  ConnectConfig.passphrase c = ConnectConfig.passphrase c' /\
  ConnectConfig.readyTimeout c = ConnectConfig.readyTimeout c' /\
  ConnectConfig.keepaliveInterval c = ConnectConfig.keepaliveInterval c' /\
  ConnectConfig.keepaliveCountMax c = ConnectConfig.keepaliveCountMax c'.
Proof.
  intros H. specialize (H O). destruct c, c'. simpl in *.
  inversion H. repeat split; assumption.
Qed.

Lemma step_connect_inv (d : Details.t) (timeout : Z) (a : Attempt)
    (ev : Event) :
  listeners_subset (emitter a) ->
  connect_inv d timeout a -> connect_inv d timeout (step a ev).
Proof.
  intros H. unfold connect_inv.
  cases_of_step a H ev; intros (Hs & Hcb & Hall);
    (split;
     [ first
         [ exact Hs
         | eapply same_settings_trans;
           [apply same_settings_set_sock|exact Hs] ]
     | split;
       [ first
           [ exact Hcb
           | intros Hp; specialize (Hcb Hp); discriminate ]
       | intros c Hin; split_in Hin; auto;
         match goal with
         | E : EClientConnect _ = _ |- _ => injection E as <-
         end;
         (split;
          [ eapply same_settings_trans;
            [apply same_settings_set_sock|exact Hs]
          | destruct cfg; simpl; split; intros Hx;
            [discriminate|specialize (Hcb Hx); discriminate] ]) ] ]).
Qed.

Lemma establish_connect_inv (d : Details.t) (timeout : Z) :
  connect_inv d timeout (establish d timeout).
Proof.
  unfold connect_inv, config_of.
  start_cases d;
    (split; [intros s; reflexivity|]);
    (split; [intros Hp; try discriminate; reflexivity|]);
    intros c Hin; split_in Hin;
    match goal with
    | E : EClientConnect _ = _ |- _ => injection E as <-
    end;
    split; [intros s; reflexivity|split; reflexivity].
Qed.

Lemma run_connect_inv (d : Details.t) (timeout : Z) (evs : list Event)
    (a : Attempt) :
  listeners_subset (emitter a) ->
  connect_inv d timeout a -> connect_inv d timeout (run a evs).
Proof.
  revert a. induction evs as [|ev evs IH]; intros a H Hinv; simpl; auto.
  apply IH; [apply step_listeners, H|apply step_connect_inv; assumption].
Qed.

(** Without live proxy callbacks no step connects the transport or
    starts any network operation. *)
Lemma step_no_callbacks (a : Attempt) (ev : Event) :
  listeners_subset (emitter a) ->
  callbacks a = no_callbacks ->
  callbacks (step a ev) = no_callbacks /\
  count is_connect (trace (step a ev)) = count is_connect (trace a) /\
  (forall e, In e (trace (step a ev)) ->
             In e (trace a) \/ is_network e = false).
Proof.
  intros H. cases_of_step a H ev; intros Hcb; try discriminate;
    (split; [solve [auto]|]);
    (split; [count_effects|]);
    intros e Hin; auto; split_in Hin; subst; auto.
Qed.

Lemma run_no_callbacks (evs : list Event) (a : Attempt) :
  listeners_subset (emitter a) ->
  callbacks a = no_callbacks ->
  count is_connect (trace (run a evs)) = count is_connect (trace a) /\
  (forall e, In e (trace (run a evs)) ->
             In e (trace a) \/ is_network e = false).
Proof.
  revert a. induction evs as [|ev evs IH]; intros a H Hcb; simpl.
  - auto.
  - destruct (step_no_callbacks a ev H Hcb) as (Hcb' & Hc & Hn).
    destruct (IH _ (step_listeners client_end a ev H) Hcb') as (Hc' & Hn').
    split; [congruence|].
    intros e Hin. destruct (Hn' e Hin) as [Hs|Hq]; auto.
Qed.

(** X9.  Whatever events arrive, every call of [sshClient.connect] of
    an attempt uses the host, port, user name and secrets of the
    credential set, the caller's timeout as [readyTimeout], a keep-alive
    interval of 5000 ms and at most 10 missed keep-alives; a socket is
    attached exactly when the credential set has a proxy.  Without a
    proxy the transport is connected exactly once, at the start. *)
Theorem connects_use_the_resolved_settings :
  forall (d : Details.t) (timeout : Z) (evs : list Event),
    let a := run (establish d timeout) evs in
    (forall cfg,
       In (EClientConnect cfg) (trace a) ->
       ConnectConfig.host cfg = Details.host d /\
       ConnectConfig.port cfg = Details.port d /\
       ConnectConfig.username cfg = Details.username d /\
       ConnectConfig.password cfg = Details.password d /\
       ConnectConfig.privateKey cfg = Details.privateKey d /\
       ConnectConfig.passphrase cfg = Details.passphrase d /\
       ConnectConfig.readyTimeout cfg = timeout /\
       ConnectConfig.keepaliveInterval cfg = 5000 /\
       ConnectConfig.keepaliveCountMax cfg = 10 /\
       (ConnectConfig.sock cfg = None <-> Details.proxy d = None))
    /\ (Details.proxy d = None -> count is_connect (trace a) = 1%nat).
Proof.
  intros d timeout evs a. subst a. split.
  - intros cfg Hin.
    destruct (run_connect_inv d timeout evs _
                (establish_listeners client_end base64 d timeout)
                (establish_connect_inv d timeout)) as (_ & _ & Hall).
    destruct (Hall cfg Hin) as [Hs Hsock].
    destruct (same_settings_fields _ _ Hs)
      as (H1 & H2 & H3 & H4 & H5 & H6 & H7 & H8 & H9).
    repeat split; try assumption; apply Hsock.
  - intros Hp.
    destruct (establish_connect_inv d timeout) as (_ & Hcb & _).
    destruct (run_no_callbacks evs _
                (establish_listeners client_end base64 d timeout)
                (Hcb Hp)) as [Hc _].
    rewrite Hc. unfold establishSshConnection. rewrite Hp.
    eval_attempt. reflexivity.
Qed.


(** ** The SOCKS5 tunnel *)





(** ** Failures of the HTTP CONNECT request *)

(** X12.  With an HTTP proxy, an 'error' of the CONNECT request fails
    the attempt with an error whose message names the proxy and ends
    with the cause, and a 'timeout' first aborts the request
    ([req.destroy()]) and then fails the attempt with the timeout
    error; in both cases [reject] and [end] are called once and the SSH
    transport is not connected. *)
Theorem http_request_failures_reject :
  forall (d : Details.t) (timeout : Z) (proxy : Proxy.t),
    Details.proxy d = Some proxy ->
    Proxy.type proxy = "HTTP" ->
    let start := establish d timeout in
    (forall err,
       let a := step start (HttpError err) in
       let e :=
         mkError ("HTTP 代理 " ++ proxy_addr proxy ++ " 请求错误: " ++
                  message err) in
       promise a = Some (Rejected e) /\
       notifications (trace a) = [EReject e] /\
       count_ends (trace a) = 1%nat /\
       count is_connect (trace a) = O)
    /\ (let a := step start HttpTimeout in
        let e := mkError ("HTTP 代理 " ++ proxy_addr proxy ++ " 连接超时") in
        promise a = Some (Rejected e) /\
        count is_connect (trace a) = O /\
        exists after,
          trace a = (trace start ++ EReqDestroy :: after)%list /\
          notifications after = [EReject e] /\
          count_ends after = 1%nat).
Proof.
  intros d timeout proxy Hproxy Htype start.
  assert (Hstart :
    exists cfg hdrs,
      start =
        mkAttempt d cfg initial_emitter None O (http_req proxy)
          [ENewClient; EHttpRequest hdrs; EReqEnd]).
  { subst start. unfold establishSshConnection.
    rewrite Hproxy, Htype. simpl String.eqb. cbv iota.
    eval_attempt. eexists _, _. reflexivity. }
  destruct Hstart as (cfg & hdrs & Hstart). rewrite Hstart.
  clear Hstart start. split.
  - intros err. unfold initial_emitter. eval_attempt.
    destruct client_end; repeat split; reflexivity.
  - unfold initial_emitter. eval_attempt.
    destruct client_end; simpl;
      (split; [reflexivity|]; split; [reflexivity|];
       eexists; split; [reflexivity|]; split; reflexivity).
Qed.

Lemma http_failure_step (a : Attempt) (ev : Event) (proxy : Proxy.t) :
  callbacks a = http_req proxy ->
  http_failure ev ->
  let a' := step a ev in
  callbacks a' = http_req proxy /\
  count_ends (trace a') = S (count_ends (trace a)) /\
  length (notifications (trace a')) = S (length (notifications (trace a)))
  /\ count is_connect (trace a') = count is_connect (trace a)
  /\ (forall s, promise a = Some s -> promise a' = Some s)
  /\ (promise a = None -> exists e, promise a' = Some (Rejected e)).
Proof.
  fields_of a. simpl. intros Hcb Hf. subst cb.
  destruct ev; simpl in Hf; try contradiction; eval_attempt;
    try (destruct (statusCode =? 200) eqn:E;
         [apply Z.eqb_eq in E; contradiction|]);
    (split; [reflexivity|]);
    unfold count_ends;
    rewrite ?notifications_app, ?count_app, ?length_app;
    destruct client_end; simpl;
    (split; [lia|]); (split; [lia|]); (split; [lia|]);
    (split; [intros s Hs; rewrite Hs; reflexivity
            |intros Hp; rewrite Hp; eexists; reflexivity]).
Qed.

(** X13.  [handleProxyError] calls [errorHandler] directly, not through
    the listener that [errorHandler] removes, so the failure path of
    the proxy is not once-only: with an HTTP proxy every failure the
    CONNECT request reports (an 'error', a 'timeout', a response other
    than 200) calls [sshClient.end()] and [reject] again.  The promise
    keeps the error of the first report and the SSH transport is never
    connected. *)
Theorem proxy_failure_reports_are_not_once_only :
  forall (d : Details.t) (timeout : Z) (proxy : Proxy.t)
         (evs : list Event),
    Details.proxy d = Some proxy ->
    Proxy.type proxy = "HTTP" ->
    Forall http_failure evs ->
    let start := establish d timeout in
    let a := run start evs in
    count_ends (trace a) = length evs /\
    length (notifications (trace a)) = length evs /\
    count is_connect (trace a) = O /\
    (forall ev rest, evs = ev :: rest ->
       promise a = promise (step start ev) /\
       exists e, promise a = Some (Rejected e)).
Proof.
  intros d timeout proxy evs Hproxy Htype Hevs start a.
  assert (Hgen : forall evs a0,
    callbacks a0 = http_req proxy -> Forall http_failure evs ->
    count_ends (trace (run a0 evs)) =
      (count_ends (trace a0) + length evs)%nat /\
    length (notifications (trace (run a0 evs))) =
      (length (notifications (trace a0)) + length evs)%nat /\
    count is_connect (trace (run a0 evs)) = count is_connect (trace a0) /\
    (forall s, promise a0 = Some s -> promise (run a0 evs) = Some s)).
  { clear. induction evs as [|ev evs IH]; intros a0 Hcb Hf; simpl.
    - repeat split; auto.
    - inversion Hf as [|? ? Hev Hrest]; subst.
      destruct (http_failure_step a0 ev proxy Hcb Hev)
        as (Hcb' & He & Hn & Hc & Hp & _).
      destruct (IH _ Hcb' Hrest) as (Ie & In' & Ic & Ip).
      rewrite Ie, In', Ic, He, Hn, Hc.
      repeat split; try lia. intros s Hs. apply Ip, Hp, Hs. }
  assert (Hstart :
    callbacks start = http_req proxy /\ promise start = None /\
    count_ends (trace start) = O /\ notifications (trace start) = [] /\
    count is_connect (trace start) = O).
  { subst start. unfold establishSshConnection.
    rewrite Hproxy, Htype. simpl String.eqb. cbv iota.
    eval_attempt. repeat split. }
  destruct Hstart as (Hcb & Hp0 & He0 & Hn0 & Hc0).
  destruct (Hgen evs start Hcb Hevs) as (He & Hn & Hc & _).
  subst a. rewrite He, Hn, Hc, He0, Hn0, Hc0. simpl.
  repeat split.
  - subst evs. rewrite run_cons.
    inversion Hevs as [|? ? Hev Hrest]; subst.
    destruct (http_failure_step start ev proxy Hcb Hev)
      as (Hcb' & _ & _ & _ & _ & Hrej).
    destruct (Hrej Hp0) as [e Hpe].
    destruct (Hgen rest _ Hcb' Hrest) as (_ & _ & _ & Hkeep).
    rewrite (Hkeep _ Hpe). symmetry. exact Hpe.
  - subst evs. rewrite run_cons.
    inversion Hevs as [|? ? Hev Hrest]; subst.
    destruct (http_failure_step start ev proxy Hcb Hev)
      as (Hcb' & _ & _ & _ & _ & Hrej).
    destruct (Hrej Hp0) as [e Hpe].
    destruct (Hgen rest _ Hcb' Hrest) as (_ & _ & _ & Hkeep).
    exists e. apply Hkeep, Hpe.
Qed.

(** ** A proxy of an unsupported type *)

(** X14.  For a credential set whose proxy has a type other than
    ['SOCKS5'] and ['HTTP'], [establishSshConnection] rejects the
    promise while it is being created, with the unsupported-type error
    naming the type, and calls [end] once.  No network operation is
    started then or by any later event, the outcome stays that error,
    and a probe on such a set returns it whatever events arrive. *)
Theorem unsupported_type_is_rejected_at_creation :
  forall (d : Details.t) (timeout : Z) (proxy : Proxy.t),
    Details.proxy d = Some proxy ->
    unsupported_proxy_type (Proxy.type proxy) = true ->
    let start := establish d timeout in
    let e := mkError ("不支持的代理类型: " ++ Proxy.type proxy) in
    promise start = Some (Rejected e)
    /\ notifications (trace start) = [EReject e]
    /\ count_ends (trace start) = 1%nat
    /\ (forall evs,
          promise (run start evs) = Some (Rejected e) /\
          Forall (fun x => is_network x = false) (trace (run start evs)))
    /\ (forall (World : Type) text startTime endTime evs
               (s : World * list Effect),
          snd (probe client_end base64 text d startTime endTime evs s) =
            Returned
              (Err (mkError ("不支持的代理类型: " ++ Proxy.type proxy)))).
Proof.
  intros d timeout proxy Hproxy Hun start e.
  assert (Hb : String.eqb (Proxy.type proxy) "SOCKS5" = false /\
               String.eqb (Proxy.type proxy) "HTTP" = false).
  { unfold unsupported_proxy_type in Hun.
    destruct (String.eqb (Proxy.type proxy) "SOCKS5");
      destruct (String.eqb (Proxy.type proxy) "HTTP");
      try discriminate; auto. }
  destruct Hb as [Hb1 Hb2].
  assert (Hstart : forall t,
    promise (establish d t) = Some (Rejected e) /\
    notifications (trace (establish d t)) = [EReject e] /\
    count_ends (trace (establish d t)) = 1%nat /\
    callbacks (establish d t) = no_callbacks /\
    Forall (fun x => is_network x = false) (trace (establish d t))).
  { intros t. unfold establishSshConnection.
    rewrite Hproxy, Hb1, Hb2. eval_attempt.
    destruct client_end; repeat split; repeat constructor. }
  destruct (Hstart timeout) as (Hp & Hn & He & Hcb & Hq).
  fold start in Hp, Hn, He, Hcb, Hq.
  assert (Hl : listeners_subset (emitter start))
    by apply establish_listeners.
  split; [exact Hp|]. split; [exact Hn|]. split; [exact He|].
  split.
  - intros evs. split.
    + apply run_promise_stable; assumption.
    + apply Forall_forall. intros x Hx.
      destruct (run_no_callbacks evs start Hl Hcb) as [_ Hnet].
      destruct (Hnet x Hx) as [Hs|Hs]; [|exact Hs].
      rewrite Forall_forall in Hq. apply Hq, Hs.
  - intros World text startTime endTime evs s.
    destruct (Hstart TEST_TIMEOUT) as (Hp' & _).
    unfold probe.
    assert (Ha : await_settlement client_end (establish d TEST_TIMEOUT)
                   evs = establish d TEST_TIMEOUT).
    { destruct evs; simpl; rewrite Hp'; reflexivity. }
    rewrite Ha, Hp'. reflexivity.
Qed.

(** ** The ready listener *)

Lemma step_keeps_ready_listener (a : Attempt) (ev : Event) :
  listeners_subset (emitter a) ->
  not_ready ev ->
  on_ready (emitter (step a ev)) = on_ready (emitter a).
Proof.
  intros H. cases_of_step a H ev; intros Hn; try contradiction;
    reflexivity.
Qed.

Lemma run_keeps_ready_listener (evs : list Event) (a : Attempt) :
  listeners_subset (emitter a) ->
  Forall not_ready evs ->
  on_ready (emitter (run a evs)) = on_ready (emitter a).
Proof.
  revert a. induction evs as [|ev evs IH]; intros a H Hn; simpl; auto.
  inversion Hn as [|? ? Hev Hrest]; subst.
  rewrite IH by (try apply step_listeners; assumption).
  apply step_keeps_ready_listener; assumption.
Qed.

Lemma ready_issues_update (a : Attempt) (now : Z) :
  on_ready (emitter a) = [mkListener fn_enhancedReadyHandler true] ->
  let a' := step a (SshReady now) in
  trace a' =
    (trace a ++
     [EUpdateLastConnected (Details.id (connDetails a)) (now / 1000)])%list
  /\ promise a' = promise a /\ suspended a' = S (suspended a).
Proof.
  fields_of a. simpl. intros Hr. subst rl.
  eval_attempt. repeat split.
Qed.

Lemma resume_any (a : Attempt) (r : result unit) (n : nat) :
  suspended a = S n ->
  let a' := step a (UpdateSettled r) in
  promise a' =
    match promise a with
    | None => Some Resolved
    | Some settled => Some settled
    end /\
  notifications (trace a') = (notifications (trace a) ++ [EResolve])%list.
Proof.
  fields_of a. simpl. intros Hn. subst.
  eval_attempt. split; [reflexivity|].
  destruct r; rewrite !notifications_app; simpl;
    rewrite ?app_nil_r; reflexivity.
Qed.

(** X15.  Neither [errorHandler] nor [closeHandler] removes the ready
    listener (they remove [readyHandler], but [enhancedReadyHandler] is
    the one registered): as long as 'ready' has not been emitted, a
    'ready' still runs the handler and issues the timestamp update.  So
    a 'ready' after an 'error' updates the timestamp and calls
    [resolve] on the already rejected promise, which stays rejected;
    and a 'ready' after a 'close' resolves the attempt. *)
Theorem ready_listener_outlives_error_and_close :
  forall (d : Details.t) (timeout : Z),
    proxy_supported d ->
    let start := establish d timeout in
    (forall evs now,
       Forall not_ready evs ->
       In (EUpdateLastConnected (Details.id d) (now / 1000))
          (trace (run start (evs ++ [SshReady now]))))
    /\ (forall err now r,
          let a := run start [SshError err; SshReady now; UpdateSettled r] in
          promise a = Some (Rejected err) /\
          notifications (trace a) = [EReject err; EResolve])
    /\ (forall now r,
          let a := run start [SshClose; SshReady now; UpdateSettled r] in
          promise a = Some Resolved /\
          notifications (trace a) = [EResolve]).
Proof.
  intros d timeout Hsup start.
  pose proof (establish_fresh client_end base64 d timeout Hsup) as Hfresh.
  pose proof (establish_connDetails client_end base64 d timeout) as Hd.
  assert (Hl : listeners_subset (emitter start))
    by apply establish_listeners.
  fold start in Hfresh, Hd.
  assert (Hr0 : on_ready (emitter start) =
                [mkListener fn_enhancedReadyHandler true]).
  { destruct Hfresh as (He & _). rewrite He. reflexivity. }
  split; [|split].
  - intros evs now Hn. rewrite run_app, run_cons, run_nil.
    assert (Hr : on_ready (emitter (run start evs)) =
                 [mkListener fn_enhancedReadyHandler true]).
    { rewrite run_keeps_ready_listener; assumption. }
    destruct (ready_issues_update _ now Hr) as (Ht & _).
    rewrite Ht, in_app_iff. right. simpl. left.
    assert (Hd' : connDetails (run start evs) = d).
    { clear -Hd Hl. revert Hd Hl. generalize start.
      induction evs as [|ev evs IH]; intros a Hd Hl; simpl; auto.
      apply IH; [rewrite step_connDetails; assumption
                |apply step_listeners; assumption]. }
    rewrite Hd'. reflexivity.
  - intros err now r. cbv zeta. rewrite !run_cons, run_nil.
    destruct (fresh_error client_end start err Hfresh)
      as (_ & Hp & Hn & _).
    assert (Hr : on_ready (emitter (step start (SshError err))) =
                 [mkListener fn_enhancedReadyHandler true]).
    { rewrite step_keeps_ready_listener; [assumption|assumption|exact I]. }
    destruct (ready_issues_update _ now Hr) as (Ht & Hp' & Hs').
    destruct (resume_any _ r _ Hs') as (Hp'' & Hn'').
    rewrite Hp'', Hp', Hp, Hn'', Ht, notifications_app, Hn.
    split; reflexivity.
  - intros now r. cbv zeta. rewrite !run_cons, run_nil.
    destruct (fresh_close client_end start Hfresh)
      as (_ & Hp & _ & Htr).
    assert (Hr : on_ready (emitter (step start SshClose)) =
                 [mkListener fn_enhancedReadyHandler true]).
    { rewrite step_keeps_ready_listener; [assumption|assumption|exact I]. }
    destruct (ready_issues_update _ now Hr) as (Ht & Hp' & Hs').
    destruct (resume_any _ r _ Hs') as (Hp'' & Hn'').
    destruct Hfresh as (_ & _ & _ & Hn0 & _).
    rewrite Hp'', Hp', Hp, Hn'', Ht, Htr, notifications_app, Hn0.
    split; reflexivity.
Qed.

(** ** At most one timestamp update *)

Lemma step_once_inv (a : Attempt) (ev : Event) :
  listeners_subset (emitter a) ->
  once_inv a -> once_inv (step a ev).
Proof.
  intros H. unfold once_inv.
  cases_of_step a H ev; intros (H1 & H2 & H3);
    (split; [|split]);
    try (rewrite ?count_app; simpl in *;
         repeat match goal with
                | |- context [match ?x with _ => _ end] =>
                    is_var x; destruct x
                end; simpl; lia);
    intros id seconds Hin; split_in Hin; eauto;
    match goal with
    | E : EUpdateLastConnected _ _ = _ |- _ =>
        injection E as <- <-; reflexivity
    end.
Qed.

Lemma establish_once_inv (d : Details.t) (timeout : Z) :
  once_inv (establish d timeout).
Proof.
  unfold once_inv.
  start_cases d; (split; [|split]);
    try (rewrite ?count_app; simpl;
         repeat match goal with
                | |- context [match ?x with _ => _ end] =>
                    is_var x; destruct x
                end; simpl; lia);
    intros id seconds Hin; split_in Hin.
Qed.

(** X16.  Whatever events arrive, an attempt calls the repository's
    last-connected update at most once, always with the identifier of
    its credential set, and calls [resolve] at most once and only after
    that update was issued. *)
Theorem ready_handler_runs_at_most_once :
  forall (d : Details.t) (timeout : Z) (evs : list Event),
    let a := run (establish d timeout) evs in
    (count is_update (trace a) <= 1)%nat /\
    (count is_resolve (trace a) <= count is_update (trace a))%nat /\
    (forall id seconds,
       In (EUpdateLastConnected id seconds) (trace a) ->
       id = Details.id d).
Proof.
  intros d timeout evs a.
  assert (Hinv : once_inv a /\ connDetails a = d).
  { subst a.
    pose proof (establish_once_inv d timeout) as H0.
    pose proof (establish_listeners client_end base64 d timeout) as Hl.
    pose proof (establish_connDetails client_end base64 d timeout) as Hd.
    revert H0 Hl Hd. generalize (establish d timeout).
    induction evs as [|ev evs IH]; intros a0 H0 Hl Hd; simpl; auto.
    apply IH;
      [ apply step_once_inv; assumption
      | apply step_listeners; assumption
      | rewrite step_connDetails; assumption ]. }
  destruct Hinv as [(H1 & H2 & H3) Hd].
  split; [lia|]. split; [lia|].
  intros id seconds Hin. rewrite <- Hd. eapply H3, Hin.
Qed.

End MoreEstablisherFacts.

(* ===================================================================== *)
(** * 13. Further properties of the connection testers and of the shell
      channel *)
(* ===================================================================== *)

Section MoreTesterFacts.
Context {World : Type} {backend : Backend World}.
Variable client_end : result unit.
Variable base64 : string -> string.

Abbreviation await := (await_settlement client_end).







Lemma await_detached (evs : list Event) (a : Attempt) :
  detached a -> promise a = None -> Forall error_or_close evs ->
  promise (await a evs) = None.
Proof.
  revert a. induction evs as [|ev evs IH]; intros a Hd Hp Hev; simpl;
    rewrite Hp; [exact Hp|].
  inversion Hev as [|? ? Hev1 Hev2]; subst.
  destruct (detached_step client_end a ev Hd Hev1) as (E1 & E2 & _).
  apply IH; [|congruence|exact Hev2].
  unfold detached in *. rewrite E1. exact Hd.
Qed.

Lemma probe_pending_after_close (text : string) (d : Details.t)
    (startTime endTime : Z) (noise : list Event)
    (s : World * list Effect) :
  proxy_supported d ->
  Forall error_or_close noise ->
  snd (probe client_end base64 text d startTime endTime
         (SshClose :: noise) s) = Pending.
Proof.
  intros Hsup Hnoise. unfold probe.
  pose proof (establish_fresh client_end base64 d TEST_TIMEOUT Hsup)
    as Hfresh.
  assert (Hp : promise (await (establishSshConnection client_end base64 d
                                 TEST_TIMEOUT) (SshClose :: noise)) = None).
  { simpl. destruct Hfresh as (He & Hp0 & Hrest). rewrite Hp0.
    destruct (fresh_close client_end _ (conj He (conj Hp0 Hrest)))
      as (Hdet & Hp1 & _).
    apply await_detached; assumption. }
  rewrite Hp. reflexivity.
Qed.

(** X18.  A tester call whose resolution succeeded does not return as
    long as the transport only reports 'close', also when 'error' and
    further 'close' events follow that close: the close handler has
    removed the error listener, nothing settles the promise, and the
    call stays pending. *)
Theorem tester_stays_pending_after_a_close :
  forall (startTime endTime : Z) (noise : list Event) (w : World),
    Forall error_or_close noise ->
    (forall connectionId d,
       snd (getConnectionDetails connectionId (w, [])) = Ok d ->
       snd (testConnection client_end base64 connectionId startTime
              endTime (SshClose :: noise) (w, [])) = Pending)
    /\ (forall connectionConfig d,
          snd (resolveInline connectionConfig (w, [])) = Ok d ->
          snd (testUnsavedConnection client_end base64 connectionConfig
                 startTime endTime (SshClose :: noise) (w, [])) = Pending).
Proof.
  intros startTime endTime noise w Hnoise. split.
  - intros connectionId d Hd.
    pose proof (getConnectionDetails_proxy_supported _ _ _ Hd) as Hsup.
    unfold testConnection.
    destruct (getConnectionDetails connectionId (w, [])) as [s1 r1].
    simpl in Hd. subst r1.
    apply probe_pending_after_close; assumption.
  - intros cfg d Hd.
    pose proof (resolveInline_proxy_supported _ _ _ Hd) as Hsup.
    unfold testUnsavedConnection.
    destruct (resolveInline cfg (w, [])) as [s1 r1].
    simpl in Hd. subst r1.
    apply probe_pending_after_close; assumption.
Qed.

End MoreTesterFacts.


(* ===================================================================== *)
(** * 14. The further properties on the sample data *)
(* ===================================================================== *)

Module OnMoreSamples.
Import Sample SampleAttempt.

Abbreviation ok := (Ok tt : result unit).
Abbreviation lookup := (getConnectionDetails (backend := backend)).
Abbreviation inline := (resolveInline (backend := backend)).
Abbreviation by_id := (testConnection (backend := backend) ok base64).
Abbreviation unsaved_test :=
  (testUnsavedConnection (backend := backend) ok base64).
Abbreviation attempt_of d :=
  (establishSshConnection ok base64 d CONNECT_TIMEOUT).
Abbreviation ready_then_updated :=
  [SshReady 1700000000123; UpdateSettled (Ok tt)].

Lemma resolved_identity_comes_from_the_row_witness :
  exists d,
    snd (lookup 1 (store, [])) = Ok d /\
    Some "10.0.0.5" = Some (Details.host d) /\
    Some 22 = Some (Details.port d).
Proof.
  assert (E : exists d, snd (lookup 1 (store, [])) = Ok d)
    by (vm_compute; eexists; reflexivity).
  destruct E as [d E].
  destruct (resolved_identity_comes_from_the_row (backend := backend)
              1 store store
              (conn 1 password_auth (Some "enc:secret") None None None None)
              eq_refl) as [Hok _].
  destruct (Hok d E) as (_ & _ & Hh & Hp & _).
  exists d. split; [exact E|]. split; [exact Hh|exact Hp].
Defined.

Lemma resolution_failures_are_wrapped_after_the_lookup_witness :
  exists e inner,
    snd (lookup 3 (store, [])) = Err e /\
    message e = "处理凭证失败: " ++ message inner.
Proof.
  assert (E : exists e, snd (lookup 3 (store, [])) = Err e)
    by (vm_compute; eexists; reflexivity).
  destruct E as [e E].
  pose proof (resolution_failures_are_wrapped_after_the_lookup
                (backend := backend) 3 store e E) as H.
  change (findFullConnectionById 3 store)
    with (store,
          Ok (Some (conn 3 key_auth None (Some 9) (Some "enc:INLINE")
                      None None)) : result (option RawConn.t)) in H.
  destruct H as (inner & before & Hm & _).
  exists e, inner. split; [exact E|exact Hm].
Defined.

Lemma password_mode_resolution_witness :
  snd (lookup 8 (MoreSamples.store, [])) =
  Err (mkError ("处理凭证失败: " ++ "Decryption failed")).
Proof.
  apply (proj2 (proj2 (proj2
           (password_mode_resolution (backend := backend) 8
              MoreSamples.store MoreSamples.store
              (conn 8 password_auth (Some "secret-in-clear") None None
                 None None)
              eq_refl eq_refl)))
           "secret-in-clear" (mkError "Decryption failed")
           eq_refl eq_refl eq_refl).
Defined.

Lemma inline_key_resolution_witness :
  exists d,
    snd (lookup 7 (MoreSamples.store, [])) = Ok d /\
    Details.password d = None /\
    exists key,
      sample_decrypt "enc:INLINE" = Ok key /\
      Details.privateKey d = Some key.
Proof.
  assert (E : exists d, snd (lookup 7 (MoreSamples.store, [])) = Ok d)
    by (vm_compute; eexists; reflexivity).
  destruct E as [d E].
  destruct (inline_key_resolution (backend := backend) 7
              MoreSamples.store MoreSamples.store
              (conn 7 key_auth None (Some 0) (Some "enc:INLINE")
                 (Some "enc:pp") None)
              "enc:INLINE" eq_refl eq_refl eq_refl eq_refl)
    as (_ & Hok & _).
  destruct (Hok d E) as (Hkey & _ & Hpw).
  exists d. split; [exact E|]. split; [exact Hpw|exact Hkey].
Defined.


Lemma resolved_proxy_comes_from_the_row_witness :
  exists d proxy,
    snd (lookup 6 (store, [])) = Ok d /\
    Details.proxy d = Some proxy /\ Proxy.id proxy = 1 /\
    Proxy.password proxy = None.
Proof.
  assert (E : exists d, snd (lookup 6 (store, [])) = Ok d)
    by (vm_compute; eexists; reflexivity).
  destruct E as [d E].
  destruct (resolved_proxy_comes_from_the_row (backend := backend) 6
              store store
              (conn 6 password_auth (Some "enc:secret") None None None
                 (Some (1, "HTTP")))
              d eq_refl E)
    as (proxy & Hp & Hid & _ & _ & _ & _ & _ & Hpw).
  exists d, proxy. repeat split; assumption.
Defined.

Lemma inline_resolution_passes_plaintext_through_witness :
  exists d,
    snd (inline (unsaved key_auth (Some 7) None) (store, [])) = Ok d /\
    Details.id d = -1 /\
    exists w1 k,
      getDecryptedSshKeyById (Backend := backend) 7 store =
        (w1, Ok (Some k)) /\
      Details.privateKey d = Some (StoredKey.privateKey k).
Proof.
  assert (E : exists d,
    snd (inline (unsaved key_auth (Some 7) None) (store, [])) = Ok d)
    by (vm_compute; eexists; reflexivity).
  destruct E as [d E].
  destruct (inline_resolution_passes_plaintext_through
              (backend := backend) (unsaved key_auth (Some 7) None) store)
    as (_ & Hok & _).
  destruct (Hok d E) as (Hid & _ & _ & _ & _ & _ & Hkey & _).
  exists d. split; [exact E|]. split; [exact Hid|].
  destruct Hkey as (w1 & k & Hv & Hpk & _).
  exists w1, k. split; assumption.
Defined.

Lemma inline_missing_proxy_fails_before_network_witness :
  snd (unsaved_test (unsaved password_auth None (Some 42)) 0 5
         ready_then_updated (store, [])) =
  Returned (Err (mkError ("代理 ID " ++ string_of_Z 42 ++ " 未找到。"))).
Proof.
  apply (inline_missing_proxy_fails_before_network (backend := backend)
           ok base64 0 5 ready_then_updated
           (unsaved password_auth None (Some 42)) store 42
           (store, [])
           (Details.mk (-1) "Test-10.0.0.5" "10.0.0.5" 22 "root"
              password_auth (Some "pw") None None None)
           eq_refl eq_refl eq_refl).
Defined.

Lemma connects_use_the_resolved_settings_witness :
  count is_connect
    (trace (run ok (attempt_of direct)
              [SshError refused; SshReady 5; UpdateSettled (Ok tt)])) =
  1%nat.
Proof.
  apply (proj2 (connects_use_the_resolved_settings ok base64 direct
                  CONNECT_TIMEOUT
                  [SshError refused; SshReady 5; UpdateSettled (Ok tt)])
           eq_refl).
Defined.



Lemma http_request_failures_reject_witness :
  Details.proxy via_http = Some MoreSamples.http_proxy /\
  promise (step ok (attempt_of via_http) HttpTimeout) =
  Some (Rejected (mkError ("HTTP 代理 " ++ "10.0.0.1:3128" ++ " 连接超时"))).
Proof.
  split; [reflexivity|].
  apply (proj2 (http_request_failures_reject ok base64 via_http
                  CONNECT_TIMEOUT MoreSamples.http_proxy eq_refl eq_refl)).
Defined.

Lemma proxy_failure_reports_are_not_once_only_witness :
  Forall http_failure [HttpTimeout; HttpError refused] /\
  count_ends
    (trace (run ok (attempt_of via_http) [HttpTimeout; HttpError refused]))
  = 2%nat.
Proof.
  assert (H : Forall http_failure [HttpTimeout; HttpError refused])
    by (repeat constructor).
  split; [exact H|].
  apply (proxy_failure_reports_are_not_once_only ok base64 via_http
           CONNECT_TIMEOUT MoreSamples.http_proxy
           [HttpTimeout; HttpError refused] eq_refl eq_refl H).
Defined.

Lemma unsupported_type_is_rejected_at_creation_witness :
  unsupported_proxy_type (Proxy.type MoreSamples.old_proxy) = true /\
  promise (attempt_of MoreSamples.via_socks4) =
  Some (Rejected (mkError ("不支持的代理类型: " ++ "SOCKS4"))).
Proof.
  split; [reflexivity|].
  apply (unsupported_type_is_rejected_at_creation ok base64
           MoreSamples.via_socks4 CONNECT_TIMEOUT MoreSamples.old_proxy
           eq_refl eq_refl).
Defined.

Lemma ready_listener_outlives_error_and_close_witness :
  proxy_supported direct /\
  promise (run ok (attempt_of direct)
             [SshClose; SshReady 1700000000123; UpdateSettled (Ok tt)]) =
  Some Resolved.
Proof.
  split; [exact I|].
  apply (proj2 (proj2 (ready_listener_outlives_error_and_close ok base64
                         direct CONNECT_TIMEOUT I))
           1700000000123 (Ok tt)).
Defined.

Lemma ready_handler_runs_at_most_once_witness :
  (count is_update
     (trace (run ok (attempt_of direct)
               [SshReady 1; SshReady 2; UpdateSettled (Ok tt);
                UpdateSettled (Ok tt)])) <= 1)%nat.
Proof.
  apply (ready_handler_runs_at_most_once ok base64 direct CONNECT_TIMEOUT
           [SshReady 1; SshReady 2; UpdateSettled (Ok tt);
            UpdateSettled (Ok tt)]).
Defined.


Lemma tester_stays_pending_after_a_close_witness :
  Forall error_or_close [SshError refused; SshClose] /\
  snd (by_id 1 0 5 [SshClose; SshError refused; SshClose] (store, [])) =
  Pending.
Proof.
  assert (H : Forall error_or_close [SshError refused; SshClose])
    by (repeat constructor).
  split; [exact H|].
  apply (proj1 (tester_stays_pending_after_a_close (backend := backend)
                  ok base64 0 5 [SshError refused; SshClose] store H)
           1
           (Details.mk 1 "srv" "10.0.0.5" 22 "root" password_auth
              (Some "secret") None None None)
           eq_refl).
Defined.

End OnMoreSamples.
